(** * Employee management system: domain model, storage engine and controller

    A shallow embedding of [models.py], [data_access_layer.py] and
    [controller.py], followed by the properties of the business-rule layer.

    Modelling conventions.
    - A Python [str] is a [string]: a sequence of code points below 256.
      [isspace] and [lower_char] are Python's [str.isspace] and [str.lower]
      on that range.
    - [Optional[str]] and a nullable TEXT column are [option string]; [None]
      is Python's [None] / SQL's NULL.
    - Python [int] and the INTEGER PRIMARY KEY column are [Z].
    - The SQLite file is a [Database]: the rows of the [employee] table and
      a schedule of engine faults.  Every statement the data access layer
      executes consumes one entry of the schedule; an entry [Some cause]
      makes that statement raise [sqlite3.Error] with text [cause].  The
      empty schedule is an engine that never fails.
    - A method that can raise is a computation in the monad [IO]; the
      controller's [try ... except Exception] is [try_except]. *)

From Stdlib Require Import ZArith String Ascii List Bool Lia DecimalString.
From Stdlib Require Import Sorting.Sorted Sorting.Permutation.
Import ListNotations.

Open Scope string_scope.
Open Scope Z_scope.

(* ================================================================== *)
(** * Python strings *)
(* ================================================================== *)

Module Py.

(** [str.isspace] on one code point below 256: TAB..CR, FS..US, SPACE,
    NEL (0x85) and NBSP (0xA0). *)
Definition isspace (c : ascii) : bool :=
  let n := nat_of_ascii c in
  ((9 <=? n) && (n <=? 13) || (28 <=? n) && (n <=? 32)
   || (n =? 133) || (n =? 160))%nat.

Fixpoint lstrip (s : string) : string :=
  match s with
  | EmptyString => EmptyString
  | String c s' => if isspace c then lstrip s' else s
  end.

(** [rstrip] peels trailing whitespace: a character is dropped when it is
    whitespace and everything after it has been dropped too. *)
Fixpoint rstrip (s : string) : string :=
  match s with
  | EmptyString => EmptyString
  | String c s' =>
      match rstrip s' with
      | EmptyString => if isspace c then EmptyString else String c EmptyString
      | t => String c t
      end
  end.

(** [s.strip()] *)
Definition strip (s : string) : string := rstrip (lstrip s).

(** [str.lower] on one code point below 256: A-Z and the Latin-1
    capitals 0xC0-0xDE (0xD7, the multiplication sign, apart). *)
Definition lower_char (c : ascii) : ascii :=
  let n := nat_of_ascii c in
  if ((65 <=? n) && (n <=? 90)
      || (192 <=? n) && (n <=? 222) && negb (n =? 215))%nat
  then ascii_of_nat (n + 32) else c.

Fixpoint lower (s : string) : string :=
  match s with
  | EmptyString => EmptyString
  | String c s' => String (lower_char c) (lower s')
  end.

(** [a in b] for strings: [a] occurs in [b] as a contiguous substring. *)
Fixpoint contains (a b : string) : bool :=
  String.prefix a b ||
  match b with
  | EmptyString => false
  | String _ b' => contains a b'
  end.

(** [bool(s)]: a string is truthy when it is not empty. *)
Definition truthy (s : string) : bool :=
  match s with EmptyString => false | _ => true end.

(** [str(n)] for an integer. *)
Definition str_of_int (z : Z) : string :=
  NilZero.string_of_int (Z.to_int z).

(** [str(len(l))] *)
Definition str_of_len {A} (l : list A) : string :=
  str_of_int (Z.of_nat (List.length l)).

End Py.

(* ================================================================== *)
(** * models.py *)
(* ================================================================== *)

(** A row of the [employee] table as [dict(row)] presents it: the keys
    [id], [fname], [lname], [department], [phNumber].  The four TEXT
    columns are nullable. *)
Module Row.
Record t : Type := mk {
  id : Z;
  fname : option string;
  lname : option string;
  department : option string;
  phNumber : option string
}.
End Row.

Module Employee.

Record t : Type := mk {
  id : option Z;
  fname : string;
  lname : string;
  department : string;
  ph_number : string
}.

Definition _clean_string (value : option string) : string :=
  match value with
  | None => ""
  | Some v => Py.strip v
  end.

(** The dataclass constructor followed by [__post_init__]. *)
Definition new (id : option Z) (fname lname department ph_number : option string) : t :=
  mk id (_clean_string fname) (_clean_string lname)
     (_clean_string department) (_clean_string ph_number).

Definition get_full_name (self : t) : string :=
  Py.strip (fname self ++ " " ++ lname self).

Definition is_valid (self : t) : bool :=
  Py.truthy (fname self) && Py.truthy (lname self)
  && Py.truthy (department self) && Py.truthy (ph_number self).

Definition get_validation_errors (self : t) : list string :=
  let errors := [] in
  let errors := if negb (Py.truthy (fname self))
                then (errors ++ ["First name is required"])%list else errors in
  let errors := if negb (Py.truthy (lname self))
                then (errors ++ ["Last name is required"])%list else errors in
  let errors := if negb (Py.truthy (department self))
                then (errors ++ ["Department is required"])%list else errors in
  let errors := if negb (Py.truthy (ph_number self))
                then (errors ++ ["Phone number is required"])%list else errors in
  errors.

Definition from_dict (data : Row.t) : t :=
  new (Some (Row.id data)) (Row.fname data) (Row.lname data)
      (Row.department data) (Row.phNumber data).

End Employee.

Module EmployeeSearchCriteria.

Record t : Type := mk { search_term : string; department : string }.

Definition new (search_term department : string) : t :=
  mk (Py.strip search_term) (Py.strip department).

Definition has_search_term (self : t) : bool := Py.truthy (search_term self).
Definition has_department_filter (self : t) : bool := Py.truthy (department self).
Definition is_empty (self : t) : bool :=
  negb (has_search_term self) && negb (has_department_filter self).

End EmployeeSearchCriteria.

Module EmployeeUpdateData.

Record t : Type := mk {
  fname : option string;
  lname : option string;
  department : option string;
  ph_number : option string
}.

(** [x.strip() if x else None]: the truth test is on the argument as
    given, before it is stripped. *)
Definition strip_if_truthy (x : option string) : option string :=
  match x with
  | Some v => if Py.truthy v then Some (Py.strip v) else None
  | None => None
  end.

Definition new (fname lname department ph_number : option string) : t :=
  mk (strip_if_truthy fname) (strip_if_truthy lname)
     (strip_if_truthy department) (strip_if_truthy ph_number).

Definition is_not_None {A} (x : option A) : bool :=
  match x with Some _ => true | None => false end.

Definition has_updates (self : t) : bool :=
  existsb (fun b => b)
    [ is_not_None (fname self); is_not_None (lname self);
      is_not_None (department self); is_not_None (ph_number self) ].

(** The dictionary of the fields being updated, in insertion order. *)
Definition get_update_fields (self : t) : list (string * string) :=
  let updates := [] in
  let updates := match fname self with
                 | Some v => (updates ++ [("fname", v)])%list | None => updates end in
  let updates := match lname self with
                 | Some v => (updates ++ [("lname", v)])%list | None => updates end in
  let updates := match department self with
                 | Some v => (updates ++ [("department", v)])%list | None => updates end in
  let updates := match ph_number self with
                 | Some v => (updates ++ [("ph_number", v)])%list | None => updates end in
  updates.

End EmployeeUpdateData.

(* ================================================================== *)
(** * Exceptions, the database and the monad of fallible methods *)
(* ================================================================== *)

Inductive Exception : Type :=
| sqlite3_Error (msg : string)
| AttributeError (msg : string)
| KeyError (msg : string).

(** [str(e)] *)
Definition str_of_exception (e : Exception) : string :=
  match e with
  | sqlite3_Error msg => msg
  | AttributeError msg => msg
  | KeyError msg => msg
  end.

Inductive Outcome (A : Type) : Type :=
| Return (a : A)
| Raise (e : Exception).
Arguments Return {A} a.
Arguments Raise {A} e.

Record Database : Type := mkDatabase {
  table : list Row.t;
  faults : list (option string)
}.

(** A database whose engine never fails. *)
Definition healthy (rows : list Row.t) : Database := mkDatabase rows [].

Definition IO (A : Type) : Type := Database -> Outcome A * Database.

Definition ret {A} (a : A) : IO A := fun db => (Return a, db).

Definition raise {A} (e : Exception) : IO A := fun db => (Raise e, db).

Definition bind {A B} (m : IO A) (k : A -> IO B) : IO B :=
  fun db =>
    match m db with
    | (Return a, db') => k a db'
    | (Raise e, db') => (Raise e, db')
    end.

Definition lift {A} (o : Outcome A) : IO A := fun db => (o, db).

Declare Scope io_scope.
Delimit Scope io_scope with io.
Notation "x <- m ;; k" := (bind m (fun x => k))
  (at level 100, m at next level, right associativity) : io_scope.
Open Scope io_scope.

(** [for x in l: s = body x s] *)
Fixpoint for_each {A S} (l : list A) (body : A -> S -> IO S) (s : S) : IO S :=
  match l with
  | [] => ret s
  | x :: l' => s' <- body x s ;; for_each l' body s'
  end.

(** Python [==] between two values that are a [str] or [None]. *)
Definition py_eq (a b : option string) : bool :=
  match a, b with
  | Some x, Some y => String.eqb x y
  | None, None => true
  | _, _ => false
  end.

(** [value.lower()], where [value] was read from a nullable column. *)
Definition lower_of (value : option string) : Outcome string :=
  match value with
  | Some v => Return (Py.lower v)
  | None => Raise (AttributeError "'NoneType' object has no attribute 'lower'")
  end.

(* ================================================================== *)
(** * SQL on the [employee] table *)
(* ================================================================== *)

Module SQL.

(** [ORDER BY]: a stable insertion sort for the order [leb]. *)
Section OrderBy.
Context {A : Type} (leb : A -> A -> bool).

Fixpoint insert_sorted (x : A) (l : list A) : list A :=
  match l with
  | [] => [x]
  | y :: l' => if leb x y then x :: l else y :: insert_sorted x l'
  end.

Definition order_by (l : list A) : list A := fold_right insert_sorted [] l.
End OrderBy.

(** [ORDER BY id] *)
Definition order_by_id : list Row.t -> list Row.t :=
  order_by (fun r1 r2 => Row.id r1 <=? Row.id r2).

(** [ORDER BY department] on text values: the BINARY collation, which
    is the lexicographic order of the code points. *)
Definition order_by_text : list string -> list string :=
  order_by String.leb.

(** [SELECT DISTINCT]: one copy of each value. *)
Definition distinct (l : list string) : list string := nodup string_dec l.

(** [column = ?] for a text parameter: NULL is equal to nothing. *)
Definition text_eq (column : option string) (param : string) : bool :=
  match column with
  | Some v => String.eqb v param
  | None => false
  end.

(** The case folding of [LIKE]: the 26 ASCII letters only. *)
Definition like_fold (c : ascii) : ascii :=
  let n := nat_of_ascii c in
  if ((65 <=? n) && (n <=? 90))%nat then ascii_of_nat (n + 32) else c.

(** [text LIKE pattern]: [%] matches any run of characters, [_] one.
    Pattern and text are read whole: SQLite stops reading either at a NUL
    and refuses a pattern of more than 50000 bytes, so the function is
    that of SQLite on strings without NUL and patterns within that length
    ([like_term] and [names_without_nul] below). *)
Fixpoint like_match (pattern : string) : string -> bool :=
  match pattern with
  | EmptyString => fun text => negb (Py.truthy text)
  | String c p' =>
      if Ascii.eqb c "%" then
        fix any (text : string) : bool :=
          like_match p' text
          || match text with
             | EmptyString => false
             | String _ text' => any text'
             end
      else if Ascii.eqb c "_" then
        fun text => match text with
                    | EmptyString => false
                    | String _ text' => like_match p' text'
                    end
      else
        fun text => match text with
                    | EmptyString => false
                    | String d text' =>
                        Ascii.eqb (like_fold c) (like_fold d) && like_match p' text'
                    end
  end.

(** [column LIKE ?]: NULL matches nothing. *)
Definition like (column : option string) (pattern : string) : bool :=
  match column with
  | Some v => like_match pattern v
  | None => false
  end.

(** The rowid an INSERT assigns: 1 in an empty table, otherwise one
    more than the largest in use (the table is assumed not to hold the
    largest 64-bit rowid, where SQLite picks an unused one at random). *)
Definition next_rowid (rows : list Row.t) : Z :=
  match map Row.id rows with
  | [] => 1
  | i :: ids => fold_right Z.max i ids + 1
  end.

Inductive Column : Type := c_fname | c_lname | c_department | c_phNumber.

(** [SET column = value] on one row. *)
Definition set_column (r : Row.t) (cv : Column * string) : Row.t :=
  match cv with
  | (c_fname, v) => Row.mk (Row.id r) (Some v) (Row.lname r) (Row.department r) (Row.phNumber r)
  | (c_lname, v) => Row.mk (Row.id r) (Row.fname r) (Some v) (Row.department r) (Row.phNumber r)
  | (c_department, v) => Row.mk (Row.id r) (Row.fname r) (Row.lname r) (Some v) (Row.phNumber r)
  | (c_phNumber, v) => Row.mk (Row.id r) (Row.fname r) (Row.lname r) (Row.department r) (Some v)
  end.

(** [UPDATE employee SET ... WHERE id = ?] *)
Definition update_where_id (assignments : list (Column * string)) (i : Z)
    (rows : list Row.t) : list Row.t :=
  map (fun r => if Row.id r =? i then fold_left set_column assignments r else r) rows.

(** The number of rows with the given id: the [rowcount] of an UPDATE or
    DELETE on that id. *)
Definition rowcount_where_id (i : Z) (rows : list Row.t) : nat :=
  List.length (filter (fun r => Row.id r =? i) rows).

End SQL.

(* ================================================================== *)
(** * data_access_layer.py *)
(* ================================================================== *)

Module EmployeeDAL.

(** [try: with get_connection() as conn: <statement> except sqlite3.Error
    as e: raise sqlite3.Error(f"<what>: {str(e)}")].  The statement reads
    the table and may replace it; the next entry of the fault schedule
    decides whether the engine fails on it. *)
Definition execute {A} (what : string)
    (statement : list Row.t -> A * list Row.t) : IO A :=
  fun db =>
    match faults db with
    | Some cause :: later =>
        (Raise (sqlite3_Error (what ++ ": " ++ cause)),
         mkDatabase (table db) later)
    | None :: later =>
        let (a, rows) := statement (table db) in (Return a, mkDatabase rows later)
    | [] =>
        let (a, rows) := statement (table db) in (Return a, mkDatabase rows [])
    end.

Definition query {A} (what : string) (select : list Row.t -> A) : IO A :=
  execute what (fun rows => (select rows, rows)).

Definition create_employee (fname lname department ph_number : string) : IO Z :=
  execute "Failed to create employee"
    (fun rows =>
       let lastrowid := SQL.next_rowid rows in
       (lastrowid,
        (rows ++ [Row.mk lastrowid (Some fname) (Some lname)
                         (Some department) (Some ph_number)])%list)).

(** The id is taken in the range of SQLite's signed 64-bit integers
    ([sqlite_integer] below); binding an id outside it raises
    [OverflowError] before the statement runs, which the model of the
    engine does not have. *)
Definition get_employee_by_id (employee_id : Z) : IO (option Row.t) :=
  query "Failed to get employee by ID"
    (fun rows => find (fun r => Row.id r =? employee_id) rows).

Definition get_all_employees : IO (list Row.t) :=
  query "Failed to get all employees" SQL.order_by_id.

Definition get_employees_by_department (department : string) : IO (list Row.t) :=
  query "Failed to get employees by department"
    (fun rows =>
       SQL.order_by_id (filter (fun r => SQL.text_eq (Row.department r) department) rows)).

(** The assignments of the dynamic UPDATE statement: one per argument
    that is not [None], in the order of the columns. *)
Definition update_fields (fname lname department ph_number : option string)
    : list (SQL.Column * string) :=
  let update_fields := [] in
  let update_fields :=
    match fname with
    | Some v => (update_fields ++ [(SQL.c_fname, v)])%list
    | None => update_fields
    end in
  let update_fields :=
    match lname with
    | Some v => (update_fields ++ [(SQL.c_lname, v)])%list
    | None => update_fields
    end in
  let update_fields :=
    match department with
    | Some v => (update_fields ++ [(SQL.c_department, v)])%list
    | None => update_fields
    end in
  let update_fields :=
    match ph_number with
    | Some v => (update_fields ++ [(SQL.c_phNumber, v)])%list
    | None => update_fields
    end in
  update_fields.

Definition update_employee (employee_id : Z)
    (fname lname department ph_number : option string) : IO bool :=
  let update_fields := update_fields fname lname department ph_number in
  match update_fields with
  | [] => ret false
  | _ =>
      execute "Failed to update employee"
        (fun rows =>
           ((0 <? SQL.rowcount_where_id employee_id rows)%nat,
            SQL.update_where_id update_fields employee_id rows))
  end.

Definition delete_employee (employee_id : Z) : IO bool :=
  execute "Failed to delete employee"
    (fun rows =>
       ((0 <? SQL.rowcount_where_id employee_id rows)%nat,
        filter (fun r => negb (Row.id r =? employee_id)) rows)).

Definition search_employees (search_term : string) : IO (list Row.t) :=
  let search_pattern := "%" ++ search_term ++ "%" in
  query "Failed to search employees"
    (fun rows =>
       SQL.order_by_id
         (filter (fun r => SQL.like (Row.fname r) search_pattern
                           || SQL.like (Row.lname r) search_pattern) rows)).

Definition get_employee_count : IO nat :=
  query "Failed to get employee count" (fun rows => List.length rows).

Definition get_departments : IO (list string) :=
  query "Failed to get departments"
    (fun rows =>
       SQL.order_by_text
         (SQL.distinct
            (flat_map (fun r => match Row.department r with
                                | Some d => [d]
                                | None => []
                                end) rows))).

End EmployeeDAL.

(* ================================================================== *)
(** * controller.py *)
(* ================================================================== *)

Record Statistics : Type := mkStatistics {
  total_employees : nat;
  total_departments : nat;
  stat_departments : list string;
  employees_per_department : list (string * nat)
}.

(** The result dictionary of a controller method: one optional entry per
    key the methods use; [None] is a key that is not in the dictionary. *)
Record Envelope : Type := mkEnvelope {
  success : bool;
  message : option string;
  errors : option (list string);
  employee_id : option Z;
  employee : option Employee.t;
  employees : option (list Employee.t);
  statistics : option Statistics;
  departments : option (list string)
}.

(** [{'success': s, 'message': m}] *)
Definition plain (s : bool) (m : string) : Envelope :=
  mkEnvelope s (Some m) None None None None None None.

(** [d[key] = value] on a dictionary kept in insertion order. *)
Fixpoint dict_set {V} (d : list (string * V)) (key : string) (value : V)
    : list (string * V) :=
  match d with
  | [] => [(key, value)]
  | (k, v) :: d' =>
      if String.eqb k key then (k, value) :: d' else (k, v) :: dict_set d' key value
  end.

(** [try: body except Exception as e: return handler(e)] *)
Definition try_except (body : IO Envelope) (handler : Exception -> Envelope)
    : Database -> Envelope * Database :=
  fun db =>
    match body db with
    | (Return result, db') => (result, db')
    | (Raise e, db') => (handler e, db')
    end.

(** A call of another controller method: it returns its dictionary and
    never raises. *)
Definition call (method : Database -> Envelope * Database) : IO Envelope :=
  fun db => let (result, db') := method db in (Return result, db').

(** [result['employees']] *)
Definition get_item_employees (result : Envelope) : IO (list Employee.t) :=
  match employees result with
  | Some l => ret l
  | None => raise (KeyError "'employees'")
  end.

Module EmployeeController.

(** In [create_employee] and [update_employee] the loop that returns at
    the first row with a colliding phone number is [existsb]: the
    dictionary it returns does not depend on the row found. *)
Definition create_employee (fname lname department ph_number : string)
    : Database -> Envelope * Database :=
  try_except
    (let employee := Employee.new None (Some fname) (Some lname)
                                  (Some department) (Some ph_number) in
     if negb (Employee.is_valid employee) then
       let errors := Employee.get_validation_errors employee in
       ret (mkEnvelope false (Some "Validation failed") (Some errors)
                       None None None None None)
     else
       existing_employees <- EmployeeDAL.get_all_employees ;;
       if existsb (fun emp => py_eq (Row.phNumber emp) (Some ph_number))
                  existing_employees
       then
         ret (plain false ("Employee with phone number " ++ ph_number
                           ++ " already exists"))
       else
         employee_id <- EmployeeDAL.create_employee fname lname department ph_number ;;
         ret (mkEnvelope true
                (Some ("Employee created successfully with ID: "
                       ++ Py.str_of_int employee_id))
                None (Some employee_id) None None None None))
    (fun e => plain false ("Failed to create employee: " ++ str_of_exception e)).

Definition get_employee (employee_id : Z) : Database -> Envelope * Database :=
  try_except
    (employee_data <- EmployeeDAL.get_employee_by_id employee_id ;;
     match employee_data with
     | None =>
         ret (plain false ("Employee with ID " ++ Py.str_of_int employee_id
                           ++ " not found"))
     | Some data =>
         let employee := Employee.from_dict data in
         ret (mkEnvelope true (Some "Employee retrieved successfully")
                         None None (Some employee) None None None)
     end)
    (fun e => plain false ("Failed to retrieve employee: " ++ str_of_exception e)).

Definition get_all_employees : Database -> Envelope * Database :=
  try_except
    (employees_data <- EmployeeDAL.get_all_employees ;;
     let employees := map Employee.from_dict employees_data in
     ret (mkEnvelope true
            (Some ("Retrieved " ++ Py.str_of_len employees ++ " employees"))
            None None None (Some employees) None None))
    (fun e => plain false ("Failed to retrieve employees: " ++ str_of_exception e)).

(** The condition of the list comprehension of the name-and-department
    branch, evaluated left to right with Python's short circuits. *)
Definition name_and_department_match (search_criteria : EmployeeSearchCriteria.t)
    (emp_data : Row.t) : Outcome bool :=
  let term := Py.lower (EmployeeSearchCriteria.search_term search_criteria) in
  let department_matches :=
    py_eq (Row.department emp_data)
          (Some (EmployeeSearchCriteria.department search_criteria)) in
  match lower_of (Row.fname emp_data) with
  | Raise e => Raise e
  | Return fname =>
      if Py.contains term fname then Return department_matches
      else
        match lower_of (Row.lname emp_data) with
        | Raise e => Raise e
        | Return lname =>
            if Py.contains term lname then Return department_matches
            else Return false
        end
  end.

(** [[Employee.from_dict(d) for d in rows if condition(d)]] *)
Fixpoint comprehension (search_criteria : EmployeeSearchCriteria.t)
    (rows : list Row.t) : Outcome (list Employee.t) :=
  match rows with
  | [] => Return []
  | emp_data :: rest =>
      match name_and_department_match search_criteria emp_data with
      | Raise e => Raise e
      | Return keep =>
          match comprehension search_criteria rest with
          | Raise e => Raise e
          | Return tail =>
              Return (if keep then Employee.from_dict emp_data :: tail else tail)
          end
      end
  end.

Definition search_employees (search_criteria : EmployeeSearchCriteria.t)
    : Database -> Envelope * Database :=
  try_except
    (employees <-
       (if EmployeeSearchCriteria.is_empty search_criteria then
          result <- call get_all_employees ;;
          if success result then get_item_employees result else ret []
        else if EmployeeSearchCriteria.has_search_term search_criteria
                && EmployeeSearchCriteria.has_department_filter search_criteria then
          all_employees <- EmployeeDAL.get_all_employees ;;
          lift (comprehension search_criteria all_employees)
        else if EmployeeSearchCriteria.has_search_term search_criteria then
          employees_data <- EmployeeDAL.search_employees
                              (EmployeeSearchCriteria.search_term search_criteria) ;;
          ret (map Employee.from_dict employees_data)
        else if EmployeeSearchCriteria.has_department_filter search_criteria then
          employees_data <- EmployeeDAL.get_employees_by_department
                              (EmployeeSearchCriteria.department search_criteria) ;;
          ret (map Employee.from_dict employees_data)
        else ret []) ;;
     ret (mkEnvelope true
            (Some ("Found " ++ Py.str_of_len employees ++ " matching employees"))
            None None None (Some employees) None None))
    (fun e => plain false ("Failed to search employees: " ++ str_of_exception e)).

(** The tail of [update_employee], from the comment [# Perform update]. *)
Definition perform_update (employee_id : Z) (update_data : EmployeeUpdateData.t)
    : IO Envelope :=
  ok <- EmployeeDAL.update_employee employee_id
          (EmployeeUpdateData.fname update_data)
          (EmployeeUpdateData.lname update_data)
          (EmployeeUpdateData.department update_data)
          (EmployeeUpdateData.ph_number update_data) ;;
  if (ok : bool) then
    ret (plain true ("Employee " ++ Py.str_of_int employee_id
                     ++ " updated successfully"))
  else
    ret (plain false ("Failed to update employee " ++ Py.str_of_int employee_id)).

Definition update_employee (employee_id : Z) (update_data : EmployeeUpdateData.t)
    : Database -> Envelope * Database :=
  try_except
    (existing_employee <- EmployeeDAL.get_employee_by_id employee_id ;;
     match existing_employee with
     | None =>
         ret (plain false ("Employee with ID " ++ Py.str_of_int employee_id
                           ++ " not found"))
     | Some _ =>
         if negb (EmployeeUpdateData.has_updates update_data) then
           ret (plain false "No fields provided for update")
         else
           match EmployeeUpdateData.ph_number update_data with
           | Some ph_number =>
               all_employees <- EmployeeDAL.get_all_employees ;;
               if existsb
                    (fun emp => py_eq (Row.phNumber emp) (Some ph_number)
                                && negb (Row.id emp =? employee_id))
                    all_employees
               then
                 ret (plain false ("Phone number " ++ ph_number
                                   ++ " is already in use by another employee"))
               else perform_update employee_id update_data
           | None => perform_update employee_id update_data
           end
     end)
    (fun e => plain false ("Failed to update employee: " ++ str_of_exception e)).

Definition delete_employee (employee_id : Z) : Database -> Envelope * Database :=
  try_except
    (existing_employee <- EmployeeDAL.get_employee_by_id employee_id ;;
     match existing_employee with
     | None =>
         ret (plain false ("Employee with ID " ++ Py.str_of_int employee_id
                           ++ " not found"))
     | Some _ =>
         ok <- EmployeeDAL.delete_employee employee_id ;;
         if (ok : bool) then
           ret (plain true ("Employee " ++ Py.str_of_int employee_id
                            ++ " deleted successfully"))
         else
           ret (plain false ("Failed to delete employee "
                             ++ Py.str_of_int employee_id))
     end)
    (fun e => plain false ("Failed to delete employee: " ++ str_of_exception e)).

Definition get_employee_statistics : Database -> Envelope * Database :=
  try_except
    (total_count <- EmployeeDAL.get_employee_count ;;
     departments <- EmployeeDAL.get_departments ;;
     department_counts <-
       for_each departments
         (fun dept department_counts =>
            dept_employees <- EmployeeDAL.get_employees_by_department dept ;;
            ret (dict_set department_counts dept (List.length dept_employees)))
         [] ;;
     ret (mkEnvelope true None None None None None
            (Some (mkStatistics total_count (List.length departments)
                                departments department_counts))
            None))
    (fun e => plain false ("Failed to get statistics: " ++ str_of_exception e)).

Definition get_departments : Database -> Envelope * Database :=
  try_except
    (departments <- EmployeeDAL.get_departments ;;
     ret (mkEnvelope true
            (Some ("Retrieved " ++ Py.str_of_len departments ++ " departments"))
            None None None None None (Some departments)))
    (fun e => plain false ("Failed to get departments: " ++ str_of_exception e)).

End EmployeeController.

(* ================================================================== *)
(** * The eight operations of the controller *)
(* ================================================================== *)

Inductive Operation : Type :=
| OpCreate (fname lname department ph_number : string)
| OpGet (employee_id : Z)
| OpGetAll
| OpSearch (search_criteria : EmployeeSearchCriteria.t)
| OpUpdate (employee_id : Z) (update_data : EmployeeUpdateData.t)
| OpDelete (employee_id : Z)
| OpGetStatistics
| OpListDepartments.

Definition perform (op : Operation) : Database -> Envelope * Database :=
  match op with
  | OpCreate fname lname department ph_number =>
      EmployeeController.create_employee fname lname department ph_number
  | OpGet employee_id => EmployeeController.get_employee employee_id
  | OpGetAll => EmployeeController.get_all_employees
  | OpSearch search_criteria => EmployeeController.search_employees search_criteria
  | OpUpdate employee_id update_data =>
      EmployeeController.update_employee employee_id update_data
  | OpDelete employee_id => EmployeeController.delete_employee employee_id
  | OpGetStatistics => EmployeeController.get_employee_statistics
  | OpListDepartments => EmployeeController.get_departments
  end.





(* ================================================================== *)
(** * Blank strings *)
(* ================================================================== *)

(** Every character of [s] is whitespace; the empty string is blank. *)
Fixpoint blank (s : string) : bool :=
  match s with
  | EmptyString => true
  | String c s' => Py.isspace c && blank s'
  end.

(* ================================================================== *)
(** * The search condition in the words of the specification *)
(* ================================================================== *)

(** [term] occurs in [name] as a substring when letter case is ignored:
    some stretch of [name] is [term] up to the case of its letters. *)
Definition occurs_ignoring_case (term name : string) : Prop :=
  exists before middle after,
    name = before ++ middle ++ after /\ Py.lower middle = Py.lower term.

(** A stored row matches the criteria when its department is the filter
    exactly and the term occurs in its first or in its last name. *)
Definition matches_name_and_department (search_criteria : EmployeeSearchCriteria.t)
    (r : Row.t) : Prop :=
  Row.department r = Some (EmployeeSearchCriteria.department search_criteria)
  /\ ((exists name, Row.fname r = Some name
                    /\ occurs_ignoring_case
                         (EmployeeSearchCriteria.search_term search_criteria) name)
      \/ (exists name, Row.lname r = Some name
                       /\ occurs_ignoring_case
                            (EmployeeSearchCriteria.search_term search_criteria) name)).

(** The condition of the comprehension of [search_employees] as a total
    test: what it evaluates to on a row whose names are not null. *)
Definition keeps (search_criteria : EmployeeSearchCriteria.t) (r : Row.t) : bool :=
  match Row.fname r, Row.lname r with
  | Some f, Some l =>
      (Py.contains (Py.lower (EmployeeSearchCriteria.search_term search_criteria))
                   (Py.lower f)
       || Py.contains (Py.lower (EmployeeSearchCriteria.search_term search_criteria))
                      (Py.lower l))
      && py_eq (Row.department r)
               (Some (EmployeeSearchCriteria.department search_criteria))
  | _, _ => false
  end.

(** No stored first or last name is null. *)
Definition names_not_null (rows : list Row.t) : Prop :=
  forall r, In r rows -> Row.fname r <> None /\ Row.lname r <> None.

(** A computation or a controller method leaves [names_not_null] in
    place. *)
Definition keeps_names_not_null {R} (f : Database -> R * Database) : Prop :=
  forall db, names_not_null (table db) -> names_not_null (table (snd (f db))).

(* ================================================================== *)
(** * Specifications of computations over the table *)
(* ================================================================== *)

(** Started on a table that satisfies [P], the computation [m] returns a
    value and a table related by [Q], or raises on a table that satisfies
    [E]; whatever the fault schedule of the engine. *)
Definition hoare {A} (P : list Row.t -> Prop) (m : IO A)
    (Q : A -> list Row.t -> Prop) (E : list Row.t -> Prop) : Prop :=
  forall db,
    P (table db) ->
    match m db with
    | (Return a, db') => Q a (table db')
    | (Raise _, db') => E (table db')
    end.

(** The same for a controller method, which always returns. *)
Definition method_spec (P : list Row.t -> Prop)
    (method : Database -> Envelope * Database)
    (Q : Envelope -> list Row.t -> Prop) : Prop :=
  forall db, P (table db) -> Q (fst (method db)) (table (snd (method db))).

(** The primary key: no two rows have the same id. *)
Definition unique_ids (rows : list Row.t) : Prop := NoDup (map Row.id rows).

(** No two records share a phone number: rows with the same non-null
    phone number have the same id. *)
Definition unique_phones (rows : list Row.t) : Prop :=
  forall r1 r2 p,
    In r1 rows -> In r2 rows ->
    Row.phNumber r1 = Some p -> Row.phNumber r2 = Some p ->
    Row.id r1 = Row.id r2.

(** The operations that only read. *)
Definition read_only (op : Operation) : bool :=
  match op with
  | OpCreate _ _ _ _ | OpUpdate _ _ | OpDelete _ => false
  | _ => true
  end.

(* ================================================================== *)
(** * The name search of the storage engine in plain words *)
(* ================================================================== *)

(** A term without the wildcards [%] and [_] of [LIKE]. *)
Fixpoint no_wildcard (term : string) : bool :=
  match term with
  | EmptyString => true
  | String c term' =>
      negb (Ascii.eqb c "%") && negb (Ascii.eqb c "_") && no_wildcard term'
  end.

(** A string with its ASCII letters folded to lower case. *)
Fixpoint fold_ascii_case (s : string) : string :=
  match s with
  | EmptyString => EmptyString
  | String c s' => String (SQL.like_fold c) (fold_ascii_case s')
  end.

(** [term] occurs in [name] as a substring when the case of the ASCII
    letters is ignored. *)
Definition occurs_ignoring_ascii_case (term name : string) : Prop :=
  exists before middle after,
    name = before ++ middle ++ after
    /\ fold_ascii_case middle = fold_ascii_case term.

(* ================================================================== *)
(** * The dictionary form of an employee and the input of the view *)
(* ================================================================== *)

(** The dictionary that [Employee.to_dict] builds and [Employee.from_dict]
    reads: the keys of a row, with an id that may be [None].  For the four
    text keys [None] stands for a missing key as well as for the value
    [None]: [from_dict] reads a missing key as the empty string and cleans
    [None] to the empty string. *)
Module EmployeeDict.

Record t : Type := mk {
  id : option Z;
  fname : option string;
  lname : option string;
  department : option string;
  phNumber : option string
}.

Definition of_row (r : Row.t) : t :=
  mk (Some (Row.id r)) (Row.fname r) (Row.lname r) (Row.department r) (Row.phNumber r).

Definition to_dict (self : Employee.t) : t :=
  mk (Employee.id self) (Some (Employee.fname self)) (Some (Employee.lname self))
     (Some (Employee.department self)) (Some (Employee.ph_number self)).

Definition from_dict (data : t) : Employee.t :=
  Employee.new (id data) (fname data) (lname data) (department data) (phNumber data).

End EmployeeDict.

(** view.py, without the printing: the lines the user types are the
    arguments. *)
Module EmployeeView.

(** [get_employee_input]: each line is stripped. *)
Definition get_employee_input (typed : string * string * string * string)
    : string * string * string * string :=
  let '(line1, line2, line3, line4) := typed in
  let fname := Py.strip line1 in
  let lname := Py.strip line2 in
  let department := Py.strip line3 in
  let ph_number := Py.strip line4 in
  (fname, lname, department, ph_number).

(** [x if x else None] *)
Definition if_truthy (x : string) : option string :=
  if Py.truthy x then Some x else None.

(** [get_update_data] *)
Definition get_update_data (typed : string * string * string * string)
    : EmployeeUpdateData.t :=
  let '(line1, line2, line3, line4) := typed in
  let fname := Py.strip line1 in
  let lname := Py.strip line2 in
  let department := Py.strip line3 in
  let ph_number := Py.strip line4 in
  EmployeeUpdateData.new (if_truthy fname) (if_truthy lname)
                         (if_truthy department) (if_truthy ph_number).

(** [handle_add_employee]: the result it gets from the controller and
    shows, and the database afterwards. *)
Definition handle_add_employee (typed : string * string * string * string)
    : Database -> Envelope * Database :=
  let '(fname, lname, department, ph_number) := get_employee_input typed in
  EmployeeController.create_employee fname lname department ph_number.

End EmployeeView.

(** The first character of [s] is whitespace. *)
Definition starts_with_space (s : string) : bool :=
  match s with
  | EmptyString => false
  | String c _ => Py.isspace c
  end.

(** The last character of [s] is whitespace. *)
Fixpoint ends_with_space (s : string) : bool :=
  match s with
  | EmptyString => false
  | String c EmptyString => Py.isspace c
  | String _ s' => ends_with_space s'
  end.

(* ================================================================== *)
(** * The limits of the engine *)
(* ================================================================== *)

(** An integer that SQLite can bind and store: a signed 64-bit value.  The
    embedding of the data access layer covers ids in this range; binding a
    Python int outside it raises OverflowError before the statement
    runs. *)
Definition sqlite_integer (z : Z) : Prop := - 2 ^ 63 <= z < 2 ^ 63.

(** The text with which each method of the data access layer wraps a
    failure of the engine. *)
Definition storage_failure_texts : list string :=
  [ "Failed to create employee"; "Failed to get employee by ID";
    "Failed to get all employees"; "Failed to get employees by department";
    "Failed to update employee"; "Failed to delete employee";
    "Failed to search employees"; "Failed to get employee count";
    "Failed to get departments" ].

(** [m] returns a value that satisfies [P] after statements on which the
    engine did not fail, or it raises.  When it raises, the statements
    before were ones on which the engine did not fail, and the exception is
    either one of the program itself or the failure of the engine on the
    next statement: then it is a [sqlite3.Error] whose text is the text of
    the data access layer, a colon and the cause the engine gave. *)
Definition returns_quietly {A} (m : IO A) (P : A -> Prop) : Prop :=
  forall db,
    match m db with
    | (Return a, db') =>
        P a /\ exists consumed,
                 faults db = (consumed ++ faults db')%list
                 /\ Forall (fun entry => entry = None) consumed
    | (Raise e, db') =>
        exists consumed,
          Forall (fun entry => entry = None) consumed
          /\ ((faults db = (consumed ++ faults db')%list
               /\ forall msg, e <> sqlite3_Error msg)
              \/ exists what cause,
                   In what storage_failure_texts
                   /\ faults db = (consumed ++ Some cause :: faults db')%list
                   /\ e = sqlite3_Error (what ++ ": " ++ cause))
    end.

(** The string has no NUL character, at which SQLite's [LIKE] stops
    reading. *)
Fixpoint no_nul (s : string) : bool :=
  match s with
  | EmptyString => true
  | String c s' => negb (Ascii.eqb c zero) && no_nul s'
  end.

(** The rows of [selected] are rows of [rows], each as often as in [rows],
    and the rows left over are [rest]. *)
Definition selection (rows selected rest : list Row.t) : Prop :=
  Permutation rows (selected ++ rest).

(** The term occurs in the first or in the last name of the row, the case
    of ASCII letters ignored; a null name has no occurrence. *)
Definition matches_name (term : string) (r : Row.t) : Prop :=
  (exists name, Row.fname r = Some name /\ occurs_ignoring_ascii_case term name)
  \/ (exists name, Row.lname r = Some name /\ occurs_ignoring_ascii_case term name).

(** The length in bytes that SQLite allows for a LIKE pattern. *)
Definition SQLITE_MAX_LIKE_PATTERN_LENGTH : Z := 50000.

(** The pattern [%term%] is one that the model of LIKE reads as SQLite
    does: the term has no NUL, at which SQLite stops reading, and the
    pattern is within the length allowed.  A character below 256 takes at
    most two bytes in UTF-8. *)
Definition like_term (term : string) : Prop :=
  no_nul term = true
  /\ 2 * Z.of_nat (String.length term) + 2 <= SQLITE_MAX_LIKE_PATTERN_LENGTH.

(** No stored first or last name has a NUL. *)
Definition names_without_nul (rows : list Row.t) : Prop :=
  forall r name, In r rows ->
    Row.fname r = Some name \/ Row.lname r = Some name -> no_nul name = true.

(* ================================================================== *)
(** * Fixtures *)
(* ================================================================== *)

(** Three records in the shape of the sample database. *)
Definition sample_rows : list Row.t :=
  [ Row.mk 1 (Some "John") (Some "Doe") (Some "Engineering") (Some "555-0101");
    Row.mk 2 (Some "Anna") (Some "Lee") (Some "Engineering") (Some "555-0102");
    Row.mk 3 (Some "Anna") (Some "Lee") (Some "Marketing") (Some "555-0103") ].

(* ================================================================== *)
(** * Properties of the storage engine *)
(* ================================================================== *)

(** ** Sorting *)

Section OrderByFacts.
Context {A : Type} (leb : A -> A -> bool).
Hypothesis leb_total : forall x y, leb x y = true \/ leb y x = true.

Lemma insert_sorted_perm (x : A) (l : list A) :
  Permutation (SQL.insert_sorted leb x l) (x :: l).
Proof.
  induction l as [|y l IH]; simpl.
  - apply Permutation_refl.
  - destruct (leb x y).
    + apply Permutation_refl.
    + eapply perm_trans; [apply perm_skip, IH | apply perm_swap].
Qed.

Lemma order_by_perm (l : list A) : Permutation (SQL.order_by leb l) l.
Proof.
  induction l as [|x l IH]; simpl.
  - constructor.
  - eapply perm_trans; [apply insert_sorted_perm | apply perm_skip, IH].
Qed.

Lemma order_by_In (l : list A) (x : A) : In x (SQL.order_by leb l) <-> In x l.
Proof.
  split; apply Permutation_in;
    [apply order_by_perm | apply Permutation_sym, order_by_perm].
Qed.

Lemma insert_sorted_HdRel (a x : A) (l : list A) :
  leb a x = true ->
  HdRel (fun u v => leb u v = true) a l ->
  HdRel (fun u v => leb u v = true) a (SQL.insert_sorted leb x l).
Proof.
  intros Hax Hl. destruct l as [|y l]; simpl.
  - now constructor.
  - destruct (leb x y); constructor; trivial.
    now inversion Hl.
Qed.

Lemma insert_sorted_Sorted (x : A) (l : list A) :
  Sorted (fun u v => leb u v = true) l ->
  Sorted (fun u v => leb u v = true) (SQL.insert_sorted leb x l).
Proof.
  induction l as [|y l IH]; simpl; intros Hs.
  - repeat constructor.
  - destruct (leb x y) eqn:Hxy.
    + constructor; [assumption | now constructor].
    + inversion Hs as [|? ? Hs' Hhd]; subst.
      constructor; [now apply IH |].
      apply insert_sorted_HdRel; trivial.
      destruct (leb_total x y) as [H|H]; congruence.
Qed.

Lemma order_by_Sorted (l : list A) :
  Sorted (fun u v => leb u v = true) (SQL.order_by leb l).
Proof.
  induction l as [|x l IH]; simpl.
  - constructor.
  - now apply insert_sorted_Sorted.
Qed.
End OrderByFacts.

Lemma order_by_id_perm (rows : list Row.t) : Permutation (SQL.order_by_id rows) rows.
Proof. apply order_by_perm. Qed.

Lemma order_by_id_In (rows : list Row.t) (r : Row.t) :
  In r (SQL.order_by_id rows) <-> In r rows.
Proof. apply order_by_In. Qed.

(** [ORDER BY id] returns the rows in ascending order of [id]. *)
Lemma order_by_id_ascending (rows : list Row.t) :
  StronglySorted (fun r1 r2 => Row.id r1 <= Row.id r2) (SQL.order_by_id rows).
Proof.
  assert (Hs : Sorted (fun r1 r2 => Row.id r1 <= Row.id r2) (SQL.order_by_id rows)).
  { eapply Sorted_ind with
      (P := fun l => Sorted (fun r1 r2 => Row.id r1 <= Row.id r2) l);
      [constructor | | apply (order_by_Sorted (fun r1 r2 => Row.id r1 <=? Row.id r2))].
    - intros a l _ IH Hhd. constructor; [exact IH |].
      destruct Hhd; constructor. now apply Z.leb_le.
    - intros x y. rewrite !Z.leb_le. lia. }
  apply Sorted_StronglySorted; [| exact Hs].
  intros x y z. lia.
Qed.

Lemma existsb_perm {A} (f : A -> bool) (l l' : list A) :
  Permutation l l' -> existsb f l = existsb f l'.
Proof.
  intros Hp. destruct (existsb f l') eqn:E.
  - apply existsb_exists in E as [x [Hin Hf]]. apply existsb_exists.
    exists x. split; [| exact Hf].
    eapply Permutation_in; [apply Permutation_sym, Hp | exact Hin].
  - destruct (existsb f l) eqn:E'; [| reflexivity].
    apply existsb_exists in E' as [x [Hin Hf]].
    rewrite <- E. symmetry. apply existsb_exists.
    exists x. split; [| exact Hf]. eapply Permutation_in; [exact Hp | exact Hin].
Qed.

(** ** Lookup by id *)

Lemma find_by_id_Some (rows : list Row.t) (i : Z) :
  (exists r, In r rows /\ Row.id r = i) ->
  exists r, find (fun r => Row.id r =? i) rows = Some r.
Proof.
  intros [r [Hin Hid]].
  destruct (find (fun r => Row.id r =? i) rows) eqn:E; [eauto |].
  exfalso. apply (find_none _ _ E) in Hin. simpl in Hin.
  apply Z.eqb_neq in Hin. contradiction.
Qed.

Lemma find_by_id_None (rows : list Row.t) (i : Z) :
  (forall r, In r rows -> Row.id r <> i) ->
  find (fun r => Row.id r =? i) rows = None.
Proof.
  intros Hno. destruct (find (fun r => Row.id r =? i) rows) eqn:E; [| reflexivity].
  apply find_some in E as [Hin Hid]. apply Z.eqb_eq in Hid.
  exfalso. exact (Hno _ Hin Hid).
Qed.

(** ** Statements on an engine that does not fail *)

Lemma execute_healthy {A} (what : string) (statement : list Row.t -> A * list Row.t)
    (rows : list Row.t) :
  EmployeeDAL.execute what statement (healthy rows) =
  (Return (fst (statement rows)), healthy (snd (statement rows))).
Proof.
  unfold EmployeeDAL.execute, healthy; simpl. now destruct (statement rows).
Qed.

Lemma query_healthy {A} (what : string) (select : list Row.t -> A) (rows : list Row.t) :
  EmployeeDAL.query what select (healthy rows) = (Return (select rows), healthy rows).
Proof. unfold EmployeeDAL.query. now rewrite execute_healthy. Qed.

(* ================================================================== *)
(** * Properties of the domain model *)
(* ================================================================== *)

(** C10. For every employee value, [is_valid] answers [true] exactly when
    [get_validation_errors] returns the empty list. *)
Theorem is_valid_iff_no_validation_errors (e : Employee.t) :
  Employee.is_valid e = true <-> Employee.get_validation_errors e = [].
Proof.
  unfold Employee.is_valid, Employee.get_validation_errors.
  destruct (Py.truthy (Employee.fname e)), (Py.truthy (Employee.lname e)),
    (Py.truthy (Employee.department e)), (Py.truthy (Employee.ph_number e));
    simpl; split; intros H; try reflexivity; discriminate H.
Qed.

(** The same agreement for an employee built by the constructor from
    arbitrary arguments, [None] and whitespace-only strings included. *)
Corollary constructed_is_valid_iff_no_errors
    (id : option Z) (fname lname department ph_number : option string) :
  let e := Employee.new id fname lname department ph_number in
  Employee.is_valid e = true <-> Employee.get_validation_errors e = [].
Proof. apply is_valid_iff_no_validation_errors. Qed.

(** ** Stripping *)

Lemma lstrip_empty_iff (s : string) : Py.lstrip s = "" <-> blank s = true.
Proof.
  induction s as [|c s IH]; simpl; [tauto |].
  destruct (Py.isspace c); simpl; [exact IH |].
  split; discriminate.
Qed.

Lemma rstrip_empty_iff (s : string) : Py.rstrip s = "" <-> blank s = true.
Proof.
  induction s as [|c s IH]; simpl; [tauto |].
  destruct (Py.rstrip s) as [|d t].
  - destruct (Py.isspace c); simpl.
    + split; [intros _; now apply IH | reflexivity].
    + split; discriminate.
  - split; [discriminate |]. intros H. apply andb_true_iff in H as [_ H].
    apply IH in H. discriminate H.
Qed.

Lemma blank_lstrip (s : string) : blank (Py.lstrip s) = blank s.
Proof.
  induction s as [|c s IH]; simpl; [reflexivity |].
  destruct (Py.isspace c) eqn:E; simpl; [exact IH | now rewrite E].
Qed.

(** A string strips to the empty string exactly when it is blank. *)
Lemma strip_empty_iff (s : string) : Py.strip s = "" <-> blank s = true.
Proof. unfold Py.strip. now rewrite rstrip_empty_iff, blank_lstrip. Qed.

Lemma truthy_strip (s : string) : Py.truthy (Py.strip s) = negb (blank s).
Proof.
  destruct (blank s) eqn:E.
  - apply strip_empty_iff in E. now rewrite E.
  - destruct (Py.strip s) eqn:E'; [| reflexivity].
    apply strip_empty_iff in E'. congruence.
Qed.

(** An employee built from four strings is valid exactly when none of them
    is blank. *)
Lemma is_valid_iff_no_blank (id : option Z) (fname lname department ph_number : string) :
  Employee.is_valid (Employee.new id (Some fname) (Some lname)
                                  (Some department) (Some ph_number))
  = negb (blank fname) && negb (blank lname)
    && negb (blank department) && negb (blank ph_number).
Proof. unfold Employee.is_valid; simpl. now rewrite !truthy_strip. Qed.

(* ================================================================== *)
(** * Properties of the controller on an engine that does not fail *)
(* ================================================================== *)

Lemma bind_execute_healthy {A B} (what : string)
    (statement : list Row.t -> A * list Row.t) (k : A -> IO B) (rows : list Row.t) :
  bind (EmployeeDAL.execute what statement) k (healthy rows) =
  k (fst (statement rows)) (healthy (snd (statement rows))).
Proof. unfold bind. now rewrite execute_healthy. Qed.

Lemma bind_query_healthy {A B} (what : string) (select : list Row.t -> A)
    (k : A -> IO B) (rows : list Row.t) :
  bind (EmployeeDAL.query what select) k (healthy rows) = k (select rows) (healthy rows).
Proof. unfold bind. now rewrite query_healthy. Qed.

(** Runs the statements of the data access layer that head the goal on a
    healthy database. *)
Ltac run_healthy :=
  unfold EmployeeDAL.get_employee_by_id, EmployeeDAL.get_all_employees,
    EmployeeDAL.create_employee, EmployeeDAL.delete_employee,
    EmployeeDAL.search_employees, EmployeeDAL.get_employees_by_department,
    EmployeeDAL.get_employee_count, EmployeeDAL.get_departments;
  repeat (rewrite ?bind_query_healthy, ?bind_execute_healthy;
          cbv beta iota; simpl fst; simpl snd).

(** ** Update *)

(** Update with no field to write, on an id that is in the table. *)
Lemma update_no_fields_present (rows : list Row.t) (i : Z) (u : EmployeeUpdateData.t) :
  EmployeeUpdateData.has_updates u = false ->
  (exists r, In r rows /\ Row.id r = i) ->
  EmployeeController.update_employee i u (healthy rows) =
  (plain false "No fields provided for update", healthy rows).
Proof.
  intros Hu Hex. destruct (find_by_id_Some rows i Hex) as [r Hr].
  unfold EmployeeController.update_employee, try_except. run_healthy.
  rewrite Hr, Hu. reflexivity.
Qed.

(** Update on an id that is not in the table, whatever the request. *)
Lemma update_absent (rows : list Row.t) (i : Z) (u : EmployeeUpdateData.t) :
  (forall r, In r rows -> Row.id r <> i) ->
  EmployeeController.update_employee i u (healthy rows) =
  (plain false ("Employee with ID " ++ Py.str_of_int i ++ " not found"), healthy rows).
Proof.
  intros Hno. unfold EmployeeController.update_employee, try_except. run_healthy.
  rewrite (find_by_id_None rows i Hno). reflexivity.
Qed.

(** C1, as the code has it.  An update request without fields fails with
    "No fields provided for update" when the id is in the table; when the
    id is not in the table (and is an integer that SQLite can bind) the
    existence check comes first and the update fails with the not-found
    message.  The table is unchanged in both cases. *)
Theorem update_without_fields (rows : list Row.t) (i : Z) (u : EmployeeUpdateData.t) :
  EmployeeUpdateData.has_updates u = false ->
  ((exists r, In r rows /\ Row.id r = i) ->
   EmployeeController.update_employee i u (healthy rows) =
   (plain false "No fields provided for update", healthy rows))
  /\
  (sqlite_integer i ->
   (forall r, In r rows -> Row.id r <> i) ->
   EmployeeController.update_employee i u (healthy rows) =
   (plain false ("Employee with ID " ++ Py.str_of_int i ++ " not found"),
    healthy rows)).
Proof.
  intros Hu. split.
  - now apply update_no_fields_present.
  - intros _. apply update_absent.
Qed.

Lemma update_without_fields_witness :
  EmployeeUpdateData.has_updates (EmployeeUpdateData.new None (Some "") None None) = false
  /\
  EmployeeController.update_employee 2
    (EmployeeUpdateData.new None (Some "") None None)
    (healthy sample_rows) =
  (plain false "No fields provided for update", healthy sample_rows)
  /\ sqlite_integer 7
  /\ (forall r, In r sample_rows -> Row.id r <> 7)
  /\
  EmployeeController.update_employee 7
    (EmployeeUpdateData.new None (Some "") None None)
    (healthy sample_rows) =
  (plain false "Employee with ID 7 not found", healthy sample_rows).
Proof.
  assert (Hint : sqlite_integer 7) by (unfold sqlite_integer; lia).
  assert (Hno : forall r, In r sample_rows -> Row.id r <> 7).
  { intros r Hr. simpl in Hr.
    destruct Hr as [<- | [<- | [<- | []]]]; simpl; discriminate. }
  split; [reflexivity |]. split.
  - apply (update_without_fields sample_rows 2
             (EmployeeUpdateData.new None (Some "") None None)).
    + reflexivity.
    + exists (Row.mk 2 (Some "Anna") (Some "Lee") (Some "Engineering") (Some "555-0102")).
      simpl. auto.
  - split; [exact Hint | split; [exact Hno |]].
    exact (proj2 (update_without_fields sample_rows 7
                    (EmployeeUpdateData.new None (Some "") None None) eq_refl)
             Hint Hno).
Defined.

(** C1 as stated fails: with no record of id 1 in the table, an update
    request without fields is answered "not found", not "no fields
    provided". *)
Lemma update_without_fields_absent_id :
  let result := fst (EmployeeController.update_employee 1
                       (EmployeeUpdateData.new None None None None) (healthy [])) in
  EmployeeUpdateData.has_updates (EmployeeUpdateData.new None None None None) = false
  /\ message result = Some "Employee with ID 1 not found"
  /\ message result <> Some "No fields provided for update".
Proof. repeat split. discriminate. Qed.

(** ** Create *)

Lemma next_rowid_fresh (rows : list Row.t) (r : Row.t) :
  In r rows -> Row.id r < SQL.next_rowid rows.
Proof.
  unfold SQL.next_rowid. intros Hin. apply (in_map Row.id) in Hin.
  destruct (map Row.id rows) as [|i ids]; [contradiction |].
  assert (H : forall (l : list Z) (a x : Z), In x (a :: l) -> x <= fold_right Z.max a l).
  { induction l as [|y l IH]; intros a x Hx.
    - destruct Hx as [Hx | []]. simpl. lia.
    - change (fold_right Z.max a (y :: l)) with (Z.max y (fold_right Z.max a l)).
      destruct Hx as [Hx | [Hx | Hx]].
      + specialize (IH a x (or_introl Hx)). lia.
      + lia.
      + specialize (IH a x (or_intror Hx)). lia. }
  specialize (H ids i (Row.id r) Hin). lia.
Qed.

Lemma phone_collision_existsb (rows : list Row.t) (ph_number : string) :
  existsb (fun emp => py_eq (Row.phNumber emp) (Some ph_number)) (SQL.order_by_id rows) = true
  <-> exists r, In r rows /\ Row.phNumber r = Some ph_number.
Proof.
  rewrite existsb_exists. split; intros [r [Hin Hr]]; exists r.
  - split; [now apply order_by_id_In |].
    destruct (Row.phNumber r) as [v|]; simpl in Hr; [| discriminate].
    apply String.eqb_eq in Hr. now subst.
  - split; [now apply order_by_id_In |].
    rewrite Hr. simpl. apply String.eqb_refl.
Qed.

(** C4. Create on an engine that does not fail has three outcomes.
    (1) When one of the four arguments is blank (empty after trimming), it
    fails with one message per blank field, in the order first name, last
    name, department, phone, and writes nothing.  (2) When no argument is
    blank and a stored row has the phone number given, it fails with a
    message naming that number and writes nothing.  (3) Otherwise it
    appends a row, and the result carries the id of that row, which no row
    had before. *)
Theorem create_employee_outcomes (rows : list Row.t)
    (fname lname department ph_number : string) :
  let result :=
    EmployeeController.create_employee fname lname department ph_number (healthy rows) in
  (blank fname = true \/ blank lname = true
   \/ blank department = true \/ blank ph_number = true ->
   result =
   (mkEnvelope false (Some "Validation failed")
      (Some (map snd
               (filter (fun field => blank (fst field))
                  [ (fname, "First name is required");
                    (lname, "Last name is required");
                    (department, "Department is required");
                    (ph_number, "Phone number is required") ])))
      None None None None None,
    healthy rows))
  /\
  (blank fname = false -> blank lname = false ->
   blank department = false -> blank ph_number = false ->
   (exists r, In r rows /\ Row.phNumber r = Some ph_number) ->
   result =
   (plain false ("Employee with phone number " ++ ph_number ++ " already exists"),
    healthy rows))
  /\
  (blank fname = false -> blank lname = false ->
   blank department = false -> blank ph_number = false ->
   (forall r, In r rows -> Row.phNumber r <> Some ph_number) ->
   exists new_id,
     (forall r, In r rows -> Row.id r <> new_id)
     /\
     result =
     (mkEnvelope true
        (Some ("Employee created successfully with ID: " ++ Py.str_of_int new_id))
        None (Some new_id) None None None None,
      healthy (rows ++ [Row.mk new_id (Some fname) (Some lname)
                               (Some department) (Some ph_number)]))).
Proof.
  intros result. subst result.
  unfold EmployeeController.create_employee, try_except.
  rewrite is_valid_iff_no_blank.
  split; [| split].
  - intros Hblank.
    assert (Hinv : negb (blank fname) && negb (blank lname)
                   && negb (blank department) && negb (blank ph_number) = false).
    { destruct Hblank as [H | [H | [H | H]]]; rewrite H; simpl;
        rewrite ?andb_false_r; reflexivity. }
    rewrite Hinv. cbn [negb].
    unfold Employee.get_validation_errors, Employee.new; simpl.
    rewrite !truthy_strip.
    destruct (blank fname), (blank lname), (blank department), (blank ph_number);
      reflexivity.
  - intros H1 H2 H3 H4 Hex. rewrite H1, H2, H3, H4. cbn [negb andb]. run_healthy.
    apply phone_collision_existsb in Hex. rewrite Hex. reflexivity.
  - intros H1 H2 H3 H4 Hfree. exists (SQL.next_rowid rows). split.
    + intros r Hin Heq. pose proof (next_rowid_fresh rows r Hin) as Hlt. lia.
    + rewrite H1, H2, H3, H4. cbn [negb andb]. run_healthy.
      destruct (existsb _ (SQL.order_by_id rows)) eqn:E.
      * apply phone_collision_existsb in E as [r [Hin Hr]].
        exfalso. exact (Hfree r Hin Hr).
      * run_healthy. reflexivity.
Qed.

Lemma create_employee_outcomes_witness :
  (* a blank field *)
  (blank "Jane" = true \/ blank "   " = true
   \/ blank "" = true \/ blank "555-0199" = true)
  /\ EmployeeController.create_employee "Jane" "   " "" "555-0199"
       (healthy sample_rows) =
     (mkEnvelope false (Some "Validation failed")
        (Some ["Last name is required"; "Department is required"])
        None None None None None,
      healthy sample_rows)
  (* a phone number that is taken *)
  /\ (exists r, In r sample_rows /\ Row.phNumber r = Some "555-0102")
  /\ EmployeeController.create_employee "Jane" "Smith" "Marketing" "555-0102"
       (healthy sample_rows) =
     (plain false "Employee with phone number 555-0102 already exists",
      healthy sample_rows)
  (* a new record *)
  /\ (forall r, In r sample_rows -> Row.phNumber r <> Some "555-0199")
  /\ exists new_id,
       (forall r, In r sample_rows -> Row.id r <> new_id)
       /\ EmployeeController.create_employee "Jane" "Smith" "Marketing" "555-0199"
            (healthy sample_rows) =
          (mkEnvelope true
             (Some ("Employee created successfully with ID: " ++ Py.str_of_int new_id))
             None (Some new_id) None None None None,
           healthy (sample_rows ++ [Row.mk new_id (Some "Jane") (Some "Smith")
                                           (Some "Marketing") (Some "555-0199")])).
Proof.
  assert (Hblank : blank "Jane" = true \/ blank "   " = true
                   \/ blank "" = true \/ blank "555-0199" = true)
    by (right; left; reflexivity).
  assert (Hex : exists r, In r sample_rows /\ Row.phNumber r = Some "555-0102").
  { exists (Row.mk 2 (Some "Anna") (Some "Lee") (Some "Engineering") (Some "555-0102")).
    simpl. auto. }
  assert (Hfree : forall r, In r sample_rows -> Row.phNumber r <> Some "555-0199").
  { intros r Hr. simpl in Hr.
    destruct Hr as [<- | [<- | [<- | []]]]; simpl; discriminate. }
  split; [exact Hblank | split].
  { exact (proj1 (create_employee_outcomes sample_rows "Jane" "   " "" "555-0199")
             Hblank). }
  split; [exact Hex | split].
  { exact (proj1 (proj2 (create_employee_outcomes sample_rows
                           "Jane" "Smith" "Marketing" "555-0102"))
             eq_refl eq_refl eq_refl eq_refl Hex). }
  split; [exact Hfree |].
  exact (proj2 (proj2 (create_employee_outcomes sample_rows
                         "Jane" "Smith" "Marketing" "555-0199"))
           eq_refl eq_refl eq_refl eq_refl Hfree).
Defined.

(** C2: the code at an input that differs from a stored phone number only
    by surrounding whitespace.  The first name and the phone number have
    blanks around them and the trimmed phone number is the one of record 1;
    Create succeeds and the row it stores holds the strings as given, not
    trimmed. *)
Theorem create_employee_stores_untrimmed :
  let outcome :=
    EmployeeController.create_employee " Jane " "Smith" "Marketing" " 555-0101 "
      (healthy sample_rows) in
  Py.strip " 555-0101 " = "555-0101"
  /\ (exists r, In r sample_rows /\ Row.phNumber r = Some "555-0101")
  /\ success (fst outcome) = true
  /\ table (snd outcome) =
     (sample_rows ++ [Row.mk 4 (Some " Jane ") (Some "Smith")
                             (Some "Marketing") (Some " 555-0101 ")])%list.
Proof.
  repeat split.
  exists (Row.mk 1 (Some "John") (Some "Doe") (Some "Engineering") (Some "555-0101")).
  simpl. auto.
Qed.

(** ** Update of the phone number *)

Lemma has_updates_phone (u : EmployeeUpdateData.t) (p : string) :
  EmployeeUpdateData.ph_number u = Some p -> EmployeeUpdateData.has_updates u = true.
Proof.
  destruct u as [f l d ph]; simpl; intros ->.
  unfold EmployeeUpdateData.has_updates; simpl.
  destruct f, l, d; reflexivity.
Qed.

Lemma other_phone_existsb (rows : list Row.t) (i : Z) (p : string) :
  existsb (fun emp => py_eq (Row.phNumber emp) (Some p) && negb (Row.id emp =? i))
          (SQL.order_by_id rows) = true
  <-> exists r', In r' rows /\ Row.id r' <> i /\ Row.phNumber r' = Some p.
Proof.
  rewrite existsb_exists. split.
  - intros [r' [Hin Hr]]. apply andb_true_iff in Hr as [Hp Hid].
    exists r'. repeat split.
    + now apply order_by_id_In.
    + apply negb_true_iff, Z.eqb_neq in Hid. exact Hid.
    + destruct (Row.phNumber r') as [v|]; simpl in Hp; [| discriminate].
      apply String.eqb_eq in Hp. now subst.
  - intros [r' [Hin [Hid Hp]]]. exists r'. split; [now apply order_by_id_In |].
    rewrite Hp. simpl. rewrite String.eqb_refl. simpl.
    apply negb_true_iff, Z.eqb_neq. exact Hid.
Qed.

Lemma rowcount_where_id_pos (rows : list Row.t) (r : Row.t) :
  In r rows -> (0 <? SQL.rowcount_where_id (Row.id r) rows)%nat = true.
Proof.
  intros Hin. apply Nat.ltb_lt. unfold SQL.rowcount_where_id.
  assert (Hf : In r (filter (fun x => Row.id x =? Row.id r) rows)).
  { apply filter_In. split; [exact Hin | apply Z.eqb_refl]. }
  destruct (filter _ rows); [contradiction | simpl; lia].
Qed.

(** With a phone number to write, the data access layer always issues the
    UPDATE statement. *)
Lemma dal_update_with_phone (i : Z) (f l d : option string) (p : string) :
  EmployeeDAL.update_employee i f l d (Some p) =
  EmployeeDAL.execute "Failed to update employee"
    (fun rows =>
       ((0 <? SQL.rowcount_where_id i rows)%nat,
        SQL.update_where_id (EmployeeDAL.update_fields f l d (Some p)) i rows)).
Proof.
  unfold EmployeeDAL.update_employee.
  destruct f, l, d; reflexivity.
Qed.

(** C5. Let [r] be a stored record and let the update request carry the
    phone number [p].  If another stored record (one with a different id)
    has the phone number [p], Update fails with the message naming [p] and
    the table is unchanged.  If [r] itself has the phone number [p] and no
    other record has it, Update succeeds: a record does not collide with
    its own number. *)
Theorem update_phone_collision (rows : list Row.t) (r : Row.t)
    (u : EmployeeUpdateData.t) (p : string) :
  In r rows ->
  EmployeeUpdateData.ph_number u = Some p ->
  ((exists r', In r' rows /\ Row.id r' <> Row.id r /\ Row.phNumber r' = Some p) ->
   EmployeeController.update_employee (Row.id r) u (healthy rows) =
   (plain false ("Phone number " ++ p ++ " is already in use by another employee"),
    healthy rows))
  /\
  (Row.phNumber r = Some p ->
   (forall r', In r' rows -> Row.id r' <> Row.id r -> Row.phNumber r' <> Some p) ->
   EmployeeController.update_employee (Row.id r) u (healthy rows) =
   (plain true ("Employee " ++ Py.str_of_int (Row.id r) ++ " updated successfully"),
    healthy (SQL.update_where_id
               (EmployeeDAL.update_fields (EmployeeUpdateData.fname u)
                  (EmployeeUpdateData.lname u) (EmployeeUpdateData.department u)
                  (Some p))
               (Row.id r) rows))).
Proof.
  intros Hin Hp.
  destruct (find_by_id_Some rows (Row.id r)) as [r0 Hr0]; [now exists r |].
  pose proof (has_updates_phone u p Hp) as Hu.
  unfold EmployeeController.update_employee, try_except.
  run_healthy. rewrite Hr0, Hu, Hp. cbn [negb]. run_healthy.
  split.
  - intros Hother. apply other_phone_existsb in Hother. rewrite Hother. reflexivity.
  - intros _ Hfree.
    destruct (existsb _ (SQL.order_by_id rows)) eqn:E.
    + apply other_phone_existsb in E as [r' [Hin' [Hid' Hp']]].
      exfalso. exact (Hfree r' Hin' Hid' Hp').
    + unfold EmployeeController.perform_update.
      rewrite Hp, dal_update_with_phone. run_healthy.
      rewrite (rowcount_where_id_pos rows r Hin). reflexivity.
Qed.

Lemma update_phone_collision_witness :
  In (Row.mk 2 (Some "Anna") (Some "Lee") (Some "Engineering") (Some "555-0102")) sample_rows
  /\ EmployeeUpdateData.ph_number (EmployeeUpdateData.new None None None (Some " 555-0102 "))
     = Some "555-0102"
  /\ success (fst (EmployeeController.update_employee 2
                     (EmployeeUpdateData.new None None None (Some " 555-0102 "))
                     (healthy sample_rows))) = true.
Proof.
  assert (Hin : In (Row.mk 2 (Some "Anna") (Some "Lee") (Some "Engineering")
                           (Some "555-0102")) sample_rows).
  { simpl. auto. }
  split; [exact Hin | split; [reflexivity |]].
  pose proof (proj2 (update_phone_collision sample_rows _
                       (EmployeeUpdateData.new None None None (Some " 555-0102 "))
                       "555-0102" Hin eq_refl)) as Hself.
  cbn [Row.id Row.phNumber] in Hself. rewrite Hself.
  - reflexivity.
  - reflexivity.
  - intros r' Hr' Hid Hph. simpl in Hr'.
    destruct Hr' as [<- | [<- | [<- | []]]]; simpl in *; congruence.
Defined.

(** ** Search with empty criteria *)

(** C7. On every table, Search with empty criteria and GetAll both succeed
    and return the same list: every stored record once, in ascending order
    of id. *)
Theorem search_empty_same_as_get_all (rows : list Row.t)
    (search_criteria : EmployeeSearchCriteria.t) :
  EmployeeSearchCriteria.is_empty search_criteria = true ->
  let found := fst (EmployeeController.search_employees search_criteria (healthy rows)) in
  let all := fst (EmployeeController.get_all_employees (healthy rows)) in
  success found = true
  /\ success all = true
  /\ employees found = employees all
  /\ exists sorted,
       employees all = Some (map Employee.from_dict sorted)
       /\ Permutation sorted rows
       /\ StronglySorted (fun r1 r2 => Row.id r1 <= Row.id r2) sorted.
Proof.
  intros Hempty found all.
  assert (Hall : EmployeeController.get_all_employees (healthy rows) =
                 (mkEnvelope true
                    (Some ("Retrieved "
                           ++ Py.str_of_len (map Employee.from_dict (SQL.order_by_id rows))
                           ++ " employees"))
                    None None None
                    (Some (map Employee.from_dict (SQL.order_by_id rows))) None None,
                  healthy rows)).
  { unfold EmployeeController.get_all_employees, try_except. run_healthy. reflexivity. }
  assert (Hfound : employees found = Some (map Employee.from_dict (SQL.order_by_id rows))
                   /\ success found = true).
  { subst found. unfold EmployeeController.search_employees, try_except.
    rewrite Hempty. unfold bind at 1. unfold bind at 1. unfold call.
    rewrite Hall. simpl. auto. }
  subst all. rewrite Hall. simpl.
  destruct Hfound as [Hf Hs]. repeat split; trivial.
  exists (SQL.order_by_id rows). repeat split.
  - apply order_by_id_perm.
  - apply order_by_id_ascending.
Qed.

Lemma search_empty_same_as_get_all_witness :
  EmployeeSearchCriteria.is_empty (EmployeeSearchCriteria.new "  " "") = true
  /\ employees (fst (EmployeeController.search_employees
                       (EmployeeSearchCriteria.new "  " "") (healthy sample_rows)))
     = employees (fst (EmployeeController.get_all_employees (healthy sample_rows))).
Proof.
  split; [reflexivity |].
  apply (search_empty_same_as_get_all sample_rows (EmployeeSearchCriteria.new "  " "")).
  reflexivity.
Defined.

(** ** The list of departments *)

Lemma string_leb_trans (a b c : string) :
  String.leb a b = true -> String.leb b c = true -> String.leb a c = true.
Proof.
  unfold String.leb. revert b c.
  induction a as [|x a IH]; intros [|y b] [|z c]; simpl; trivial; try discriminate.
  unfold Ascii.compare.
  destruct (N.compare_spec (N_of_ascii x) (N_of_ascii y)) as [Hxy|Hxy|Hxy];
    destruct (N.compare_spec (N_of_ascii y) (N_of_ascii z)) as [Hyz|Hyz|Hyz];
    destruct (N.compare_spec (N_of_ascii x) (N_of_ascii z)) as [Hxz|Hxz|Hxz];
    try discriminate; trivial; try lia.
  apply IH.
Qed.

Lemma string_leb_neq_ltb (a b : string) :
  String.leb a b = true -> a <> b -> String.ltb a b = true.
Proof.
  unfold String.leb, String.ltb. intros Hle Hne.
  destruct (String.compare a b) eqn:E; try discriminate; trivial.
  apply String.compare_eq_iff in E. contradiction.
Qed.

Lemma order_by_text_ascending (l : list string) :
  NoDup l -> StronglySorted (fun a b => String.ltb a b = true) (SQL.order_by_text l).
Proof.
  intros Hnd.
  assert (Hnd' : NoDup (SQL.order_by_text l)).
  { eapply Permutation_NoDup; [apply Permutation_sym, order_by_perm | exact Hnd]. }
  assert (Hs : StronglySorted (fun a b => String.leb a b = true) (SQL.order_by_text l)).
  { apply Sorted_StronglySorted.
    - intros a b c. apply string_leb_trans.
    - apply order_by_Sorted. apply String.leb_total. }
  induction Hs as [|a t Hs IH Hall]; constructor.
  - apply IH. now inversion Hnd'.
  - inversion Hnd' as [|? ? Hnotin _]; subst.
    rewrite Forall_forall in *. intros b Hb.
    apply string_leb_neq_ltb; [now apply Hall |].
    intros ->. contradiction.
Qed.

(** C9, as the code has it.  The list of departments holds every non-null
    department value of the table exactly once, in strictly ascending
    order.  Null values are left out; the empty string is a value like any
    other and is listed when a row has it. *)
Theorem get_departments_distinct_sorted_non_null (rows : list Row.t) :
  exists l,
    EmployeeDAL.get_departments (healthy rows) = (Return l, healthy rows)
    /\ StronglySorted (fun a b => String.ltb a b = true) l
    /\ (forall d, In d l <-> exists r, In r rows /\ Row.department r = Some d).
Proof.
  unfold EmployeeDAL.get_departments. rewrite query_healthy.
  eexists. split; [reflexivity |]. split.
  - apply order_by_text_ascending. apply NoDup_nodup.
  - intros d. unfold SQL.order_by_text. rewrite order_by_In.
    unfold SQL.distinct. rewrite nodup_In, in_flat_map. split.
    + intros [r [Hin Hd]]. exists r. split; [exact Hin |].
      destruct (Row.department r) as [v|]; simpl in Hd; [| contradiction].
      destruct Hd as [-> | []]. reflexivity.
    + intros [r [Hin Hd]]. exists r. split; [exact Hin |].
      rewrite Hd. simpl. auto.
Qed.

(** C9 as stated fails: a row whose department is the empty string puts
    the empty string in the list of departments. *)
Lemma get_departments_lists_blank :
  fst (EmployeeDAL.get_departments
         (healthy [ Row.mk 1 (Some "Ann") (Some "Lee") (Some "") (Some "555-0101");
                    Row.mk 2 (Some "Bob") (Some "Ray") None (Some "555-0102");
                    Row.mk 3 (Some "Cy") (Some "Orr") (Some "HR") (Some "555-0103") ]))
  = Return [""; "HR"]
  /\ ~ (forall d,
          In d [""; "HR"] -> d <> "").
Proof.
  split; [reflexivity |].
  intros H. apply (H ""); [simpl; auto | reflexivity].
Qed.

(** ** The update request *)

(** What the constructor of the update request does to one argument:
    [None] and the empty string become absent, any other string becomes
    present with its stripped value. *)
Lemma strip_if_truthy_cases (x : option string) :
  (EmployeeUpdateData.strip_if_truthy x = None /\ (x = None \/ x = Some ""))
  \/ (exists v, x = Some v /\ v <> ""
                /\ EmployeeUpdateData.strip_if_truthy x = Some (Py.strip v)).
Proof.
  destruct x as [[|c v]|]; simpl; auto.
  right. exists (String c v). repeat split. discriminate.
Qed.

(** A field of the update request is present and empty exactly when the
    argument is a blank string that is not empty. *)
Lemma strip_if_truthy_empty_iff (x : option string) :
  EmployeeUpdateData.strip_if_truthy x = Some ""
  <-> exists v, x = Some v /\ v <> "" /\ blank v = true.
Proof.
  split.
  - destruct x as [[|c v]|]; simpl; try discriminate.
    intros H. injection H as H. exists (String c v).
    repeat split; [discriminate | now apply strip_empty_iff].
  - intros [v [-> [Hne Hb]]]. destruct v as [|c v]; [contradiction |].
    simpl. f_equal. now apply strip_empty_iff.
Qed.

(** C6: the code at a whitespace-only argument.  The first name of the
    update request is present and empty, the request counts as having
    updates, and Update overwrites the stored first name of record 1 with
    the empty string. *)
Theorem update_request_keeps_blank_field :
  let update_data := EmployeeUpdateData.new (Some "   ") None None None in
  let outcome := EmployeeController.update_employee 1 update_data (healthy sample_rows) in
  EmployeeUpdateData.fname update_data = Some ""
  /\ EmployeeUpdateData.has_updates update_data = true
  /\ fst outcome = plain true "Employee 1 updated successfully"
  /\ table (snd outcome) =
     [ Row.mk 1 (Some "") (Some "Doe") (Some "Engineering") (Some "555-0101");
       Row.mk 2 (Some "Anna") (Some "Lee") (Some "Engineering") (Some "555-0102");
       Row.mk 3 (Some "Anna") (Some "Lee") (Some "Marketing") (Some "555-0103") ].
Proof. repeat split. Qed.

(** ** Search by name and department *)

Lemma prefix_iff_append (a b : string) :
  String.prefix a b = true <-> exists after, b = a ++ after.
Proof.
  revert b. induction a as [|x a IH]; intros [|y b]; simpl.
  - split; [intros _; now exists "" | reflexivity].
  - split; [intros _; now exists (String y b) | reflexivity].
  - split; [discriminate | intros [after H]; discriminate H].
  - destruct (ascii_dec x y) as [->|Hne].
    + rewrite IH. split; intros [after H]; exists after.
      * now rewrite H.
      * now injection H.
    + split; [discriminate |]. intros [after H]. injection H as Hxy _.
      now subst.
Qed.

Lemma contains_iff_append (a b : string) :
  Py.contains a b = true <-> exists before after, b = before ++ a ++ after.
Proof.
  induction b as [|y b IH].
  - destruct a as [|x a]; simpl.
    + split; [intros _; now exists "", "" | reflexivity].
    + split; [discriminate |].
      intros [[|z before] [after H]]; discriminate H.
  - change (Py.contains a (String y b))
      with (String.prefix a (String y b) || Py.contains a b).
    rewrite orb_true_iff, IH, prefix_iff_append. split.
    + intros [[after H] | [before [after H]]].
      * now exists "", after.
      * exists (String y before), after. simpl. now rewrite H.
    + intros [[|x before] [after H]].
      * left. now exists after.
      * right. simpl in H. injection H as _ H. now exists before, after.
Qed.

Lemma lower_append (a b : string) : Py.lower (a ++ b) = Py.lower a ++ Py.lower b.
Proof. induction a as [|x a IH]; simpl; [reflexivity | now rewrite IH]. Qed.

Lemma lower_split (t x y : string) :
  Py.lower t = x ++ y ->
  exists t1 t2, t = t1 ++ t2 /\ Py.lower t1 = x /\ Py.lower t2 = y.
Proof.
  revert t. induction x as [|c x IH]; intros t H; simpl in H.
  - now exists "", t.
  - destruct t as [|d t]; simpl in H; [discriminate |].
    injection H as Hc H. destruct (IH t H) as [t1 [t2 [-> [H1 H2]]]].
    exists (String d t1), t2. simpl. now rewrite Hc, H1.
Qed.

(** The test [term.lower() in name.lower()] decides the occurrence of the
    term in the name with letter case ignored. *)
Lemma contains_lower_iff (term name : string) :
  Py.contains (Py.lower term) (Py.lower name) = true
  <-> occurs_ignoring_case term name.
Proof.
  rewrite contains_iff_append. unfold occurs_ignoring_case. split.
  - intros [before [after H]].
    destruct (lower_split _ _ _ H) as [t1 [t23 [-> [H1 H23]]]].
    destruct (lower_split _ _ _ H23) as [t2 [t3 [-> [H2 H3]]]].
    now exists t1, t2, t3.
  - intros [before [middle [after [-> H]]]].
    exists (Py.lower before), (Py.lower after).
    now rewrite !lower_append, H.
Qed.


Lemma keeps_iff_matches (search_criteria : EmployeeSearchCriteria.t) (r : Row.t) :
  Row.fname r <> None -> Row.lname r <> None ->
  keeps search_criteria r = true <-> matches_name_and_department search_criteria r.
Proof.
  unfold keeps, matches_name_and_department. intros Hf Hl.
  destruct (Row.fname r) as [f|]; [| contradiction].
  destruct (Row.lname r) as [l|]; [| contradiction].
  rewrite andb_true_iff, orb_true_iff, !contains_lower_iff. split.
  - intros [Hname Hdept]. split.
    + destruct (Row.department r) as [d|]; simpl in Hdept; [| discriminate].
      apply String.eqb_eq in Hdept. now subst.
    + destruct Hname as [H|H]; [left; now exists f | right; now exists l].
  - intros [Hdept Hname]. split.
    + destruct Hname as [[n [Hn H]] | [n [Hn H]]]; injection Hn as <-; auto.
    + rewrite Hdept. simpl. apply String.eqb_refl.
Qed.

Lemma comprehension_without_null_names (search_criteria : EmployeeSearchCriteria.t)
    (rows : list Row.t) :
  names_not_null rows ->
  EmployeeController.comprehension search_criteria rows =
  Return (map Employee.from_dict (filter (keeps search_criteria) rows)).
Proof.
  induction rows as [|r rows IH]; intros Hnn; simpl; [reflexivity |].
  rewrite IH by (intros r' Hr'; apply Hnn; now right).
  destruct (Hnn r (or_introl eq_refl)) as [Hf Hl].
  unfold EmployeeController.name_and_department_match, keeps.
  destruct (Row.fname r) as [f|]; [| contradiction].
  destruct (Row.lname r) as [l|]; [| contradiction].
  simpl.
  destruct (Py.contains _ (Py.lower f)); simpl.
  - now destruct (py_eq _ _).
  - destruct (Py.contains _ (Py.lower l)); simpl; [| reflexivity].
    now destruct (py_eq _ _).
Qed.

Lemma StronglySorted_filter {A} (R : A -> A -> Prop) (f : A -> bool) (l : list A) :
  StronglySorted R l -> StronglySorted R (filter f l).
Proof.
  induction 1 as [|a l Hs IH Hall]; simpl; [constructor |].
  destruct (f a); [| exact IH].
  constructor; [exact IH |].
  rewrite Forall_forall in *. intros x Hx. apply filter_In in Hx as [Hx _]. auto.
Qed.

Lemma filter_selection (f : Row.t -> bool) (rows : list Row.t) :
  selection rows (filter f rows) (filter (fun r => negb (f r)) rows).
Proof.
  unfold selection. induction rows as [|r rows IH]; simpl; [constructor |].
  destruct (f r); simpl.
  - now constructor.
  - now apply Permutation_cons_app.
Qed.

Lemma selection_of_sorted (rows sorted selected rest : list Row.t) :
  Permutation sorted rows -> selection sorted selected rest ->
  selection rows selected rest.
Proof.
  unfold selection. intros Hp Hs.
  eapply perm_trans; [apply Permutation_sym, Hp | exact Hs].
Qed.

(** The rows that a statement selects and orders by id, with the rows it
    leaves, are the table. *)
Lemma sorted_filter_selection (f : Row.t -> bool) (rows : list Row.t) :
  selection rows (SQL.order_by_id (filter f rows))
            (filter (fun r => negb (f r)) rows).
Proof.
  unfold selection.
  eapply perm_trans; [apply filter_selection |].
  apply Permutation_app_tail, Permutation_sym, order_by_id_perm.
Qed.

(** On every table in which no first or last name is null (strings being of
    code points below 256, where [str.lower] maps character by character),
    Search with a term and a department succeeds and reports the number of records it
    returns.  The records returned are a selection of the table: each row
    that matches (department equal to the filter, term in the first or
    last name with letter case ignored) is returned as often as the table
    has it, no other row is returned, and the order is ascending by id. *)
Lemma search_name_and_department (rows : list Row.t)
    (search_criteria : EmployeeSearchCriteria.t) :
  EmployeeSearchCriteria.has_search_term search_criteria = true ->
  EmployeeSearchCriteria.has_department_filter search_criteria = true ->
  names_not_null rows ->
  exists matching rest,
    EmployeeController.search_employees search_criteria (healthy rows) =
    (mkEnvelope true
       (Some ("Found " ++ Py.str_of_len matching ++ " matching employees"))
       None None None (Some (map Employee.from_dict matching)) None None,
     healthy rows)
    /\ selection rows matching rest
    /\ (forall r, In r matching -> matches_name_and_department search_criteria r)
    /\ (forall r, In r rest -> ~ matches_name_and_department search_criteria r)
    /\ StronglySorted (fun r1 r2 => Row.id r1 <= Row.id r2) matching.
Proof.
  intros Hterm Hdept Hnn.
  exists (filter (keeps search_criteria) (SQL.order_by_id rows)).
  exists (filter (fun r => negb (keeps search_criteria r)) (SQL.order_by_id rows)).
  split; [| split; [| split; [| split]]].
  - unfold EmployeeController.search_employees, try_except,
      EmployeeSearchCriteria.is_empty.
    rewrite Hterm, Hdept. cbn [negb andb].
    unfold bind at 1. run_healthy. unfold lift.
    rewrite comprehension_without_null_names
      by (intros r Hr; apply Hnn; now apply order_by_id_In).
    unfold ret, Py.str_of_len. now rewrite length_map.
  - eapply selection_of_sorted; [apply order_by_id_perm | apply filter_selection].
  - intros r Hr. apply filter_In in Hr as [Hin Hk].
    apply (proj1 (order_by_id_In rows r)) in Hin.
    destruct (Hnn r Hin). now apply keeps_iff_matches.
  - intros r Hr Hm. apply filter_In in Hr as [Hin Hk].
    apply (proj1 (order_by_id_In rows r)) in Hin. destruct (Hnn r Hin).
    apply keeps_iff_matches in Hm; trivial. rewrite Hm in Hk. discriminate.
  - apply StronglySorted_filter, order_by_id_ascending.
Qed.

(** On the fixture of the specification the search for "an" in
    Engineering returns the record of Anna Lee in Engineering and no
    other. *)
Example search_an_engineering :
  employees (fst (EmployeeController.search_employees
                    (EmployeeSearchCriteria.new "an" "Engineering")
                    (healthy sample_rows)))
  = Some [Employee.mk (Some 2) "Anna" "Lee" "Engineering" "555-0102"].
Proof. reflexivity. Qed.

(** C8: the code on a table with a null first name.  The term "an"
    occurs in the last name of record 2, whose department is the filter,
    so the record matches; evaluating the condition on it raises and
    Search returns a failure instead of the matching record.  On the same
    table Search with the term alone, Search with the department alone
    and GetAll succeed and return the record. *)
Lemma search_name_and_department_null_name :
  let rows :=
    [ Row.mk 1 (Some "John") (Some "Doe") (Some "Engineering") (Some "555-0101");
      Row.mk 2 None (Some "Hanson") (Some "Engineering") (Some "555-0102") ] in
  let search_criteria := EmployeeSearchCriteria.new "an" "Engineering" in
  EmployeeSearchCriteria.has_search_term search_criteria = true
  /\ EmployeeSearchCriteria.has_department_filter search_criteria = true
  /\ matches_name_and_department search_criteria
       (Row.mk 2 None (Some "Hanson") (Some "Engineering") (Some "555-0102"))
  /\ EmployeeController.search_employees search_criteria (healthy rows) =
     (plain false
        "Failed to search employees: 'NoneType' object has no attribute 'lower'",
      healthy rows)
  /\ success (fst (EmployeeController.search_employees search_criteria (healthy rows)))
     <> true
  /\ employees (fst (EmployeeController.search_employees
                       (EmployeeSearchCriteria.new "an" "") (healthy rows)))
     = Some [Employee.mk (Some 2) "" "Hanson" "Engineering" "555-0102"]
  /\ employees (fst (EmployeeController.search_employees
                       (EmployeeSearchCriteria.new "" "Engineering") (healthy rows)))
     = Some [Employee.mk (Some 1) "John" "Doe" "Engineering" "555-0101";
             Employee.mk (Some 2) "" "Hanson" "Engineering" "555-0102"]
  /\ employees (fst (EmployeeController.get_all_employees (healthy rows)))
     = Some [Employee.mk (Some 1) "John" "Doe" "Engineering" "555-0101";
             Employee.mk (Some 2) "" "Hanson" "Engineering" "555-0102"].
Proof.
  repeat split; try discriminate. right. exists "Hanson". split; [reflexivity |].
  now exists "H", "an", "son".
Qed.

(* ================================================================== *)
(** * The result of every operation, on any engine *)
(* ================================================================== *)

Lemma returns_quietly_ret {A} (a : A) (P : A -> Prop) :
  P a -> returns_quietly (ret a) P.
Proof.
  intros HP db. simpl. split; [exact HP |]. now exists [].
Qed.


Lemma returns_quietly_execute {A} (what : string)
    (statement : list Row.t -> A * list Row.t) (P : A -> Prop) :
  In what storage_failure_texts ->
  (forall rows, P (fst (statement rows))) ->
  returns_quietly (EmployeeDAL.execute what statement) P.
Proof.
  intros Hwhat HP db. unfold EmployeeDAL.execute.
  destruct (faults db) as [|[cause|] later] eqn:E.
  - specialize (HP (table db)). destruct (statement (table db)) as [a rows'].
    split; [exact HP |]. now exists [].
  - exists []. split; [constructor |]. right. now exists what, cause.
  - specialize (HP (table db)). destruct (statement (table db)) as [a rows'].
    split; [exact HP |]. exists [None]. split; [reflexivity | now repeat constructor].
Qed.

Lemma returns_quietly_query {A} (what : string) (select : list Row.t -> A)
    (P : A -> Prop) :
  In what storage_failure_texts ->
  (forall rows, P (select rows)) ->
  returns_quietly (EmployeeDAL.query what select) P.
Proof. intros Hwhat HP. now apply returns_quietly_execute. Qed.



Lemma returns_quietly_dal_update (i : Z) (f l d p : option string) :
  returns_quietly (EmployeeDAL.update_employee i f l d p) (fun _ => True).
Proof.
  unfold EmployeeDAL.update_employee.
  destruct (EmployeeDAL.update_fields f l d p).
  - now apply returns_quietly_ret.
  - apply returns_quietly_execute; [simpl; tauto | exact (fun _ => I)].
Qed.




(** One statement of the data access layer whose value does not matter. *)
Ltac statement :=
  first [ apply returns_quietly_query with (P := fun _ => True);
          [simpl; tauto | exact (fun _ => I)]
        | apply returns_quietly_execute with (P := fun _ => True);
          [simpl; tauto | exact (fun _ => I)]
        | apply returns_quietly_dal_update ].








(** When the engine fails under Search with empty criteria, GetAll reports
    the failure and Search reports success with an empty list. *)
Lemma search_empty_on_engine_failure :
  let db := mkDatabase sample_rows [Some "disk I/O error"] in
  let search_criteria := EmployeeSearchCriteria.new "" "" in
  fst (EmployeeController.get_all_employees db) =
  plain false
    "Failed to retrieve employees: Failed to get all employees: disk I/O error"
  /\ fst (EmployeeController.search_employees search_criteria db) =
     mkEnvelope true (Some "Found 0 matching employees")
                None None None (Some []) None None.
Proof. split; reflexivity. Qed.

(* ================================================================== *)
(** * The controller never stores a null name *)
(* ================================================================== *)

Lemma keeps_ret {A} (a : A) : keeps_names_not_null (ret a).
Proof. intros db H. exact H. Qed.

Lemma keeps_lift {A} (o : Outcome A) : keeps_names_not_null (lift o).
Proof. intros db H. exact H. Qed.

Lemma keeps_bind {A B} (m : IO A) (k : A -> IO B) :
  keeps_names_not_null m -> (forall a, keeps_names_not_null (k a)) ->
  keeps_names_not_null (bind m k).
Proof.
  intros Hm Hk db H. unfold bind. specialize (Hm db H).
  destruct (m db) as [[a|e] db1]; simpl in *; [| exact Hm].
  now apply Hk.
Qed.

Lemma keeps_execute {A} (what : string) (statement : list Row.t -> A * list Row.t) :
  (forall rows, names_not_null rows -> names_not_null (snd (statement rows))) ->
  keeps_names_not_null (EmployeeDAL.execute what statement).
Proof.
  intros Hs db H. unfold EmployeeDAL.execute.
  destruct (faults db) as [|[cause|] later]; simpl; trivial;
    specialize (Hs (table db) H); now destruct (statement (table db)).
Qed.

Lemma keeps_query {A} (what : string) (select : list Row.t -> A) :
  keeps_names_not_null (EmployeeDAL.query what select).
Proof. apply keeps_execute. intros rows H. exact H. Qed.

Lemma keeps_for_each {A S} (l : list A) (body : A -> S -> IO S) (s : S) :
  (forall x s', keeps_names_not_null (body x s')) ->
  keeps_names_not_null (for_each l body s).
Proof.
  intros Hbody. revert s. induction l as [|x l IH]; intros s; simpl.
  - apply keeps_ret.
  - apply keeps_bind; [apply Hbody | intros s'; apply IH].
Qed.

Lemma keeps_try_except (body : IO Envelope) (handler : Exception -> Envelope) :
  keeps_names_not_null body -> keeps_names_not_null (try_except body handler).
Proof.
  intros Hb db H. unfold try_except. specialize (Hb db H).
  now destruct (body db) as [[r|e] db1].
Qed.

Lemma keeps_call (method : Database -> Envelope * Database) :
  keeps_names_not_null method -> keeps_names_not_null (call method).
Proof.
  intros Hm db H. unfold call. specialize (Hm db H).
  now destruct (method db).
Qed.

Lemma set_columns_keep_names (assignments : list (SQL.Column * string)) (r : Row.t) :
  Row.fname r <> None /\ Row.lname r <> None ->
  Row.fname (fold_left SQL.set_column assignments r) <> None
  /\ Row.lname (fold_left SQL.set_column assignments r) <> None.
Proof.
  revert r. induction assignments as [|[column v] rest IH]; intros r H; simpl.
  - exact H.
  - apply IH. destruct H as [Hf Hl].
    destruct column; simpl; split; trivial; discriminate.
Qed.

Lemma update_where_id_keeps_names (assignments : list (SQL.Column * string))
    (i : Z) (rows : list Row.t) :
  names_not_null rows -> names_not_null (SQL.update_where_id assignments i rows).
Proof.
  intros H r Hr. unfold SQL.update_where_id in Hr.
  apply in_map_iff in Hr as [r0 [<- Hin]].
  destruct (Row.id r0 =? i); [apply set_columns_keep_names |]; now apply H.
Qed.

Lemma keeps_dal_update (i : Z) (f l d p : option string) :
  keeps_names_not_null (EmployeeDAL.update_employee i f l d p).
Proof.
  unfold EmployeeDAL.update_employee.
  destruct (EmployeeDAL.update_fields f l d p); [apply keeps_ret |].
  apply keeps_execute. intros rows H. now apply update_where_id_keeps_names.
Qed.

(** Walks through the body of a method, one statement or branch at a
    time. *)
Ltac keeps :=
  repeat first
    [ apply keeps_ret
    | apply keeps_lift
    | apply keeps_query
    | apply keeps_bind; [| intros ?]
    | apply keeps_try_except
    | match goal with
      | |- keeps_names_not_null (if ?b then _ else _) => destruct b
      | |- keeps_names_not_null (match ?x with Some _ => _ | None => _ end) =>
          destruct x
      end ].

(** Whatever the operation, its arguments and the faults of the engine: if
    no stored name is null before, none is afterwards.  Create stores the
    strings it was given, Update writes strings, and the other operations
    add nothing. *)
Lemma controller_keeps_names_not_null (op : Operation) :
  keeps_names_not_null (perform op).
Proof.
  destruct op as [f l d p | i | | c | i u | i | |]; simpl perform.
  - unfold EmployeeController.create_employee. keeps.
    apply keeps_execute. intros rows H r Hr. simpl in Hr.
    apply in_app_or in Hr as [Hr | [<- | []]]; [now apply H |].
    simpl. split; discriminate.
  - unfold EmployeeController.get_employee. keeps.
  - unfold EmployeeController.get_all_employees. keeps.
  - unfold EmployeeController.search_employees. keeps.
    + apply keeps_call. unfold EmployeeController.get_all_employees. keeps.
    + unfold get_item_employees. destruct (employees a); [apply keeps_ret |].
      intros db H. exact H.
  - unfold EmployeeController.update_employee. keeps; apply keeps_dal_update.
  - unfold EmployeeController.delete_employee. keeps.
    apply keeps_execute. intros rows H r Hr. simpl in Hr.
    apply filter_In in Hr as [Hr _]. now apply H.
  - unfold EmployeeController.get_employee_statistics. keeps.
    apply keeps_for_each. intros dept counts. keeps.
  - unfold EmployeeController.get_departments. keeps.
Qed.

(* ================================================================== *)
(** * Reasoning about methods on any engine *)
(* ================================================================== *)

Lemma hoare_ret {A} (P : list Row.t -> Prop) (a : A)
    (Q : A -> list Row.t -> Prop) (E : list Row.t -> Prop) :
  (forall rows, P rows -> Q a rows) -> hoare P (ret a) Q E.
Proof. intros H db HP. simpl. now apply H. Qed.

Lemma hoare_raise {A} (P : list Row.t -> Prop) (e : Exception)
    (Q : A -> list Row.t -> Prop) (E : list Row.t -> Prop) :
  (forall rows, P rows -> E rows) -> hoare P (@raise A e) Q E.
Proof. intros H db HP. simpl. now apply H. Qed.

Lemma hoare_bind {A B} (P : list Row.t -> Prop) (m : IO A) (k : A -> IO B)
    (R : A -> list Row.t -> Prop) (Q : B -> list Row.t -> Prop)
    (E : list Row.t -> Prop) :
  hoare P m R E -> (forall a, hoare (R a) (k a) Q E) -> hoare P (bind m k) Q E.
Proof.
  intros Hm Hk db HP. unfold bind. specialize (Hm db HP).
  destruct (m db) as [[a|e] db1]; [| exact Hm].
  exact (Hk a db1 Hm).
Qed.

Lemma hoare_execute {A} (P : list Row.t -> Prop) (what : string)
    (statement : list Row.t -> A * list Row.t)
    (Q : A -> list Row.t -> Prop) (E : list Row.t -> Prop) :
  (forall rows, P rows -> Q (fst (statement rows)) (snd (statement rows))) ->
  (forall rows, P rows -> E rows) ->
  hoare P (EmployeeDAL.execute what statement) Q E.
Proof.
  intros HQ HE db HP. unfold EmployeeDAL.execute.
  destruct (faults db) as [|[cause|] later]; simpl.
  - specialize (HQ _ HP). now destruct (statement (table db)).
  - now apply HE.
  - specialize (HQ _ HP). now destruct (statement (table db)).
Qed.

Lemma hoare_query {A} (P : list Row.t -> Prop) (what : string)
    (select : list Row.t -> A)
    (Q : A -> list Row.t -> Prop) (E : list Row.t -> Prop) :
  (forall rows, P rows -> Q (select rows) rows) ->
  (forall rows, P rows -> E rows) ->
  hoare P (EmployeeDAL.query what select) Q E.
Proof. intros HQ HE. apply hoare_execute; assumption. Qed.

Lemma hoare_lift {A} (P : list Row.t -> Prop) (o : Outcome A)
    (Q : A -> list Row.t -> Prop) (E : list Row.t -> Prop) :
  (forall a rows, o = Return a -> P rows -> Q a rows) ->
  (forall e rows, o = Raise e -> P rows -> E rows) ->
  hoare P (lift o) Q E.
Proof.
  intros HQ HE db HP. unfold lift. destruct o as [a|e]; [now apply HQ | now eapply HE].
Qed.

Lemma hoare_for_each {A S} (I : list Row.t -> Prop) (l : list A)
    (body : A -> S -> IO S) (s : S) :
  (forall x s', hoare I (body x s') (fun _ => I) I) ->
  hoare I (for_each l body s) (fun _ => I) I.
Proof.
  intros Hbody. revert s. induction l as [|x l IH]; intros s; simpl.
  - now apply hoare_ret.
  - eapply hoare_bind; [apply Hbody | intros s'; apply IH].
Qed.

Lemma hoare_call (P : list Row.t -> Prop) (method : Database -> Envelope * Database)
    (Q : Envelope -> list Row.t -> Prop) (E : list Row.t -> Prop) :
  method_spec P method Q -> hoare P (call method) Q E.
Proof.
  intros Hm db HP. unfold call. specialize (Hm db HP). now destruct (method db).
Qed.

Lemma method_try_except (P : list Row.t -> Prop) (body : IO Envelope)
    (handler : Exception -> Envelope)
    (Q : Envelope -> list Row.t -> Prop) (E : list Row.t -> Prop) :
  hoare P body Q E ->
  (forall e rows, E rows -> Q (handler e) rows) ->
  method_spec P (try_except body handler) Q.
Proof.
  intros Hb Hh db HP. unfold try_except. specialize (Hb db HP).
  destruct (body db) as [[r|e] db1]; simpl; [exact Hb | now apply Hh].
Qed.

Lemma hoare_weaken {A} (P P' : list Row.t -> Prop) (m : IO A)
    (Q Q' : A -> list Row.t -> Prop) (E E' : list Row.t -> Prop) :
  hoare P' m Q' E' ->
  (forall rows, P rows -> P' rows) ->
  (forall a rows, Q' a rows -> Q a rows) ->
  (forall rows, E' rows -> E rows) ->
  hoare P m Q E.
Proof.
  intros Hm HP HQ HE db H. specialize (Hm db (HP _ H)).
  destruct (m db) as [[a|e] db1]; auto.
Qed.

(** ** What the statements of the data access layer do to the table *)

Lemma set_columns_id (assignments : list (SQL.Column * string)) (r : Row.t) :
  Row.id (fold_left SQL.set_column assignments r) = Row.id r.
Proof.
  revert r. induction assignments as [|[column v] rest IH]; intros r; simpl.
  - reflexivity.
  - rewrite IH. now destruct column.
Qed.

Lemma update_where_id_ids (assignments : list (SQL.Column * string)) (i : Z)
    (rows : list Row.t) :
  map Row.id (SQL.update_where_id assignments i rows) = map Row.id rows.
Proof.
  unfold SQL.update_where_id. rewrite map_map. apply map_ext.
  intros r. destruct (Row.id r =? i); [apply set_columns_id | reflexivity].
Qed.

Lemma rowcount_zero_iff (i : Z) (rows : list Row.t) :
  (0 <? SQL.rowcount_where_id i rows)%nat = false
  <-> forall r, In r rows -> Row.id r <> i.
Proof.
  unfold SQL.rowcount_where_id. rewrite Nat.ltb_ge. split.
  - intros Hle r Hin Hid.
    assert (Hf : In r (filter (fun x => Row.id x =? i) rows)).
    { apply filter_In. split; [exact Hin | now apply Z.eqb_eq]. }
    destruct (filter _ rows); [contradiction | simpl in Hle; lia].
  - intros Hno. destruct (filter (fun x => Row.id x =? i) rows) as [|r l] eqn:E.
    + simpl. lia.
    + assert (Hf : In r (filter (fun x => Row.id x =? i) rows)) by (rewrite E; now left).
      apply filter_In in Hf as [Hin Hid]. apply Z.eqb_eq in Hid.
      exfalso. exact (Hno r Hin Hid).
Qed.

Lemma update_where_id_absent (assignments : list (SQL.Column * string)) (i : Z)
    (rows : list Row.t) :
  (forall r, In r rows -> Row.id r <> i) ->
  SQL.update_where_id assignments i rows = rows.
Proof.
  intros Hno. unfold SQL.update_where_id.
  rewrite <- (map_id rows) at 2. apply map_ext_in.
  intros r Hin. destruct (Row.id r =? i) eqn:E; [| reflexivity].
  apply Z.eqb_eq in E. exfalso. exact (Hno r Hin E).
Qed.

Lemma delete_where_id_absent (i : Z) (rows : list Row.t) :
  (forall r, In r rows -> Row.id r <> i) ->
  filter (fun r => negb (Row.id r =? i)) rows = rows.
Proof.
  intros Hno. induction rows as [|r rows IH]; simpl; [reflexivity |].
  destruct (Row.id r =? i) eqn:E; simpl.
  - apply Z.eqb_eq in E. exfalso. apply (Hno r); [now left | exact E].
  - f_equal. apply IH. intros r' Hr'. apply Hno. now right.
Qed.

(** The row an UPDATE leaves behind: each column that has an assignment
    holds the new value, every other column and the id are as before. *)
Lemma updated_row (f l d p : option string) (r : Row.t) :
  fold_left SQL.set_column (EmployeeDAL.update_fields f l d p) r =
  Row.mk (Row.id r)
         (match f with Some v => Some v | None => Row.fname r end)
         (match l with Some v => Some v | None => Row.lname r end)
         (match d with Some v => Some v | None => Row.department r end)
         (match p with Some v => Some v | None => Row.phNumber r end).
Proof. destruct r, f, l, d, p; reflexivity. Qed.

(** ** A failed operation writes nothing *)

Lemma dal_update_false_unchanged (rows0 : list Row.t) (i : Z)
    (f l d p : option string) :
  hoare (fun rows => rows = rows0) (EmployeeDAL.update_employee i f l d p)
        (fun ok rows => ok = false -> rows = rows0) (fun rows => rows = rows0).
Proof.
  unfold EmployeeDAL.update_employee.
  destruct (EmployeeDAL.update_fields f l d p) as [|a fields] eqn:E.
  - apply hoare_ret. auto.
  - apply hoare_execute; [| auto]. intros rows -> Hok. simpl in *.
    apply update_where_id_absent. now apply rowcount_zero_iff.
Qed.

Lemma perform_update_failure_unchanged (rows0 : list Row.t) (i : Z)
    (u : EmployeeUpdateData.t) :
  hoare (fun rows => rows = rows0) (EmployeeController.perform_update i u)
        (fun result rows => success result = false \/ false = true -> rows = rows0)
        (fun rows => rows = rows0).
Proof.
  unfold EmployeeController.perform_update.
  eapply hoare_bind; [apply dal_update_false_unchanged |].
  intros [|]; apply hoare_ret; simpl; intros rows H [Hs|Hs];
    try discriminate; now apply H.
Qed.

Lemma table_unchanged_spec (op : Operation) (rows0 : list Row.t) :
  method_spec (fun rows => rows = rows0) (perform op)
              (fun result rows =>
                 success result = false \/ read_only op = true -> rows = rows0).
Proof.
  destruct op as [f l d p | i | | c | i u | i | |]; simpl perform;
    unfold EmployeeController.create_employee, EmployeeController.get_employee,
      EmployeeController.get_all_employees, EmployeeController.search_employees,
      EmployeeController.update_employee, EmployeeController.delete_employee,
      EmployeeController.get_employee_statistics, EmployeeController.get_departments.
  - (* create *)
    apply method_try_except with (E := fun rows => rows = rows0); [| auto].
    destruct (negb (Employee.is_valid _)); [apply hoare_ret; auto |].
    eapply hoare_bind with (R := fun _ rows => rows = rows0);
      [apply hoare_query; auto |].
    intros existing. destruct (existsb _ existing); [apply hoare_ret; auto |].
    eapply hoare_bind with (R := fun _ _ => True); [apply hoare_execute; auto |].
    intros new_id. apply hoare_ret. intros rows _ [Hs|Hs]; discriminate Hs.
  - (* get *)
    apply method_try_except with (E := fun rows => rows = rows0); [| auto].
    eapply hoare_bind with (R := fun _ rows => rows = rows0);
      [apply hoare_query; auto |].
    intros [r|]; apply hoare_ret; auto.
  - (* get all *)
    apply method_try_except with (E := fun rows => rows = rows0); [| auto].
    eapply hoare_bind with (R := fun _ rows => rows = rows0);
      [apply hoare_query; auto |].
    intros l. apply hoare_ret; auto.
  - (* search *)
    apply method_try_except with (E := fun rows => rows = rows0); [| auto].
    eapply hoare_bind with (R := fun _ rows => rows = rows0);
      [| intros l; apply hoare_ret; auto].
    destruct (EmployeeSearchCriteria.is_empty c).
    + eapply hoare_bind with (R := fun _ rows => rows = rows0).
      * apply hoare_call.
        apply method_try_except with (E := fun rows => rows = rows0); [| auto].
        eapply hoare_bind with (R := fun _ rows => rows = rows0);
          [apply hoare_query; auto |].
        intros l. apply hoare_ret; auto.
      * intros result. destruct (success result); [| apply hoare_ret; auto].
        unfold get_item_employees.
        destruct (employees result); [apply hoare_ret | apply hoare_raise]; auto.
    + destruct (EmployeeSearchCriteria.has_search_term c);
        destruct (EmployeeSearchCriteria.has_department_filter c); simpl.
      * eapply hoare_bind with (R := fun _ rows => rows = rows0);
          [apply hoare_query; auto |].
        intros l. apply hoare_lift; auto.
      * eapply hoare_bind with (R := fun _ rows => rows = rows0);
          [apply hoare_query; auto |].
        intros l. apply hoare_ret; auto.
      * eapply hoare_bind with (R := fun _ rows => rows = rows0);
          [apply hoare_query; auto |].
        intros l. apply hoare_ret; auto.
      * apply hoare_ret; auto.
  - (* update *)
    apply method_try_except with (E := fun rows => rows = rows0); [| auto].
    eapply hoare_bind with (R := fun _ rows => rows = rows0);
      [apply hoare_query; auto |].
    intros [r|]; [| apply hoare_ret; auto].
    destruct (negb (EmployeeUpdateData.has_updates u)); [apply hoare_ret; auto |].
    destruct (EmployeeUpdateData.ph_number u) as [ph|];
      [| apply perform_update_failure_unchanged].
    eapply hoare_bind with (R := fun _ rows => rows = rows0);
      [apply hoare_query; auto |].
    intros l. destruct (existsb _ l);
      [apply hoare_ret; auto | apply perform_update_failure_unchanged].
  - (* delete *)
    apply method_try_except with (E := fun rows => rows = rows0); [| auto].
    eapply hoare_bind with (R := fun _ rows => rows = rows0);
      [apply hoare_query; auto |].
    intros [r|]; [| apply hoare_ret; auto].
    eapply hoare_bind with (R := fun ok rows => ok = false -> rows = rows0).
    + apply hoare_execute; [| auto]. intros rows -> Hok. simpl in *.
      apply delete_where_id_absent. now apply rowcount_zero_iff.
    + intros [|]; apply hoare_ret; simpl; intros rows H [Hs|Hs];
        try discriminate; now apply H.
  - (* statistics *)
    apply method_try_except with (E := fun rows => rows = rows0); [| auto].
    eapply hoare_bind with (R := fun _ rows => rows = rows0);
      [apply hoare_query; auto |].
    intros total.
    eapply hoare_bind with (R := fun _ rows => rows = rows0);
      [apply hoare_query; auto |].
    intros depts.
    eapply hoare_bind with (R := fun _ rows => rows = rows0).
    + apply hoare_for_each. intros dept counts.
      eapply hoare_bind with (R := fun _ rows => rows = rows0);
        [apply hoare_query; auto |].
      intros l. apply hoare_ret; auto.
    + intros counts. apply hoare_ret; auto.
  - (* departments *)
    apply method_try_except with (E := fun rows => rows = rows0); [| auto].
    eapply hoare_bind with (R := fun _ rows => rows = rows0);
      [apply hoare_query; auto |].
    intros l. apply hoare_ret; auto.
Qed.

(** X7. On every engine and for every operation: when the result says
    [success = False], the table is what it was before the call. *)
Theorem failure_leaves_table_unchanged (op : Operation) (db : Database) :
  success (fst (perform op db)) = false ->
  table (snd (perform op db)) = table db.
Proof.
  intros Hs. apply (table_unchanged_spec op (table db) db); auto.
Qed.

Lemma failure_leaves_table_unchanged_witness :
  let db := mkDatabase sample_rows [None; Some "database is locked"] in
  let op := OpCreate "Jane" "Smith" "Marketing" "555-0199" in
  success (fst (perform op db)) = false
  /\ table (snd (perform op db)) = sample_rows.
Proof.
  intros db op. split; [reflexivity |].
  apply (failure_leaves_table_unchanged op db). reflexivity.
Defined.

(** ** The operations that read do not write *)

(** X8. On every engine, Get, GetAll, Search, Statistics and ListDepartments
    leave the table as it was, whatever they return. *)
Theorem read_only_operations_keep_table (op : Operation) (db : Database) :
  read_only op = true -> table (snd (perform op db)) = table db.
Proof.
  intros Hr. apply (table_unchanged_spec op (table db) db); auto.
Qed.

Lemma read_only_operations_keep_table_witness :
  let db := mkDatabase sample_rows [None; None; Some "disk I/O error"] in
  read_only OpGetStatistics = true
  /\ table (snd (perform OpGetStatistics db)) = sample_rows.
Proof.
  intros db. split; [reflexivity |].
  apply (read_only_operations_keep_table OpGetStatistics db). reflexivity.
Defined.

(** ** Unique ids and unique phone numbers *)

Lemma insert_keeps_unique (rows : list Row.t) (f l d p : string) :
  unique_ids rows -> unique_phones rows ->
  (forall r, In r rows -> Row.phNumber r <> Some p) ->
  let row := Row.mk (SQL.next_rowid rows) (Some f) (Some l) (Some d) (Some p) in
  unique_ids (rows ++ [row]) /\ unique_phones (rows ++ [row]).
Proof.
  intros Hids Hph Hfree row. split.
  - unfold unique_ids. rewrite map_app. simpl.
    eapply Permutation_NoDup; [apply Permutation_cons_append |].
    constructor; [| exact Hids].
    intros Hin. apply in_map_iff in Hin as [r [Hid Hr]].
    pose proof (next_rowid_fresh rows r Hr). lia.
  - intros r1 r2 q H1 H2 Hq1 Hq2.
    apply in_app_or in H1 as [H1 | [<- | []]];
      apply in_app_or in H2 as [H2 | [<- | []]]; simpl in *.
    + exact (Hph r1 r2 q H1 H2 Hq1 Hq2).
    + exfalso. apply (Hfree r1 H1). congruence.
    + exfalso. apply (Hfree r2 H2). congruence.
    + reflexivity.
Qed.

Lemma update_keeps_unique (rows : list Row.t) (i : Z) (f l d p : option string) :
  unique_ids rows -> unique_phones rows ->
  (forall v, p = Some v ->
             forall r, In r rows -> Row.id r <> i -> Row.phNumber r <> Some v) ->
  unique_ids (SQL.update_where_id (EmployeeDAL.update_fields f l d p) i rows)
  /\ unique_phones (SQL.update_where_id (EmployeeDAL.update_fields f l d p) i rows).
Proof.
  intros Hids Hph Hfree. split.
  - unfold unique_ids. now rewrite update_where_id_ids.
  - intros r1' r2' q H1 H2 Hq1 Hq2. unfold SQL.update_where_id in H1, H2.
    apply in_map_iff in H1 as [r1 [<- H1]].
    apply in_map_iff in H2 as [r2 [<- H2]].
    rewrite !updated_row in *.
    destruct (Row.id r1 =? i) eqn:E1; destruct (Row.id r2 =? i) eqn:E2;
      simpl in *.
    + apply Z.eqb_eq in E1, E2. congruence.
    + apply Z.eqb_eq in E1. apply Z.eqb_neq in E2.
      destruct p as [v|]; [| now apply (Hph r1 r2 q)].
      exfalso. apply (Hfree v eq_refl r2 H2 E2). congruence.
    + apply Z.eqb_neq in E1. apply Z.eqb_eq in E2.
      destruct p as [v|]; [| now apply (Hph r1 r2 q)].
      exfalso. apply (Hfree v eq_refl r1 H1 E1). congruence.
    + now apply (Hph r1 r2 q).
Qed.

Lemma delete_keeps_unique (rows : list Row.t) (i : Z) :
  unique_ids rows -> unique_phones rows ->
  unique_ids (filter (fun r => negb (Row.id r =? i)) rows)
  /\ unique_phones (filter (fun r => negb (Row.id r =? i)) rows).
Proof.
  intros Hids Hph. split.
  - unfold unique_ids in *. induction rows as [|r rows IH]; simpl; [constructor |].
    inversion Hids as [|? ? Hnotin Hrest]; subst.
    assert (Hsub : forall x, In x (map Row.id (filter (fun r => negb (Row.id r =? i)) rows))
                             -> In x (map Row.id rows)).
    { intros x Hx. apply in_map_iff in Hx as [r' [<- Hr']].
      apply filter_In in Hr' as [Hr' _]. now apply in_map. }
    assert (Hph' : unique_phones rows).
    { intros r1 r2 q H1 H2. apply Hph; now right. }
    destruct (negb (Row.id r =? i)); simpl; [constructor |]; auto.
  - intros r1 r2 q H1 H2. apply filter_In in H1 as [H1 _].
    apply filter_In in H2 as [H2 _]. now apply Hph.
Qed.

Lemma operations_keep_unique_spec (op : Operation) :
  method_spec (fun rows => unique_ids rows /\ unique_phones rows) (perform op)
              (fun _ rows => unique_ids rows /\ unique_phones rows).
Proof.
  set (Inv := fun rows => unique_ids rows /\ unique_phones rows).
  destruct (read_only op) eqn:Hro.
  { intros db H. pose proof (table_unchanged_spec op (table db) db eq_refl) as Hsame.
    simpl in Hsame. rewrite Hsame; auto. }
  destruct op as [f l d p | i | | c | i u | i | |]; try discriminate Hro;
    simpl perform;
    unfold EmployeeController.create_employee, EmployeeController.update_employee,
      EmployeeController.delete_employee.
  - (* create *)
    apply method_try_except with (E := Inv); [| auto].
    destruct (negb (Employee.is_valid _)); [apply hoare_ret; auto |].
    eapply hoare_bind with (R := fun l rows => Inv rows /\ l = SQL.order_by_id rows);
      [apply hoare_query; unfold Inv; tauto |].
    intros existing. destruct (existsb _ existing) eqn:Hex;
      [apply hoare_ret; tauto |].
    eapply hoare_bind with (R := fun _ rows => Inv rows);
      [| intros new_id; apply hoare_ret; auto].
    apply hoare_execute; [| tauto].
    intros rows [[Hids Hph] ->]. simpl.
    apply insert_keeps_unique; trivial.
    intros r Hr Hp.
    assert (Hc : existsb (fun emp => py_eq (Row.phNumber emp) (Some p))
                         (SQL.order_by_id rows) = true)
      by (apply phone_collision_existsb; eauto).
    congruence.
  - (* update *)
    assert (Hperform :
      hoare (fun rows => Inv rows
                         /\ forall v, EmployeeUpdateData.ph_number u = Some v ->
                              forall r, In r rows -> Row.id r <> i ->
                                        Row.phNumber r <> Some v)
            (EmployeeController.perform_update i u) (fun _ rows => Inv rows) Inv).
    { unfold EmployeeController.perform_update.
      eapply hoare_bind with (R := fun _ rows => Inv rows);
        [| intros [|]; apply hoare_ret; auto].
      unfold EmployeeDAL.update_employee.
      destruct (EmployeeDAL.update_fields _ _ _ _) eqn:E; [apply hoare_ret; tauto |].
      rewrite <- E. apply hoare_execute; [| tauto].
      intros rows [[Hids Hph] Hfree]. simpl. now apply update_keeps_unique. }
    apply method_try_except with (E := Inv); [| auto].
    eapply hoare_bind with (R := fun _ rows => Inv rows);
      [apply hoare_query; auto |].
    intros [r|]; [| apply hoare_ret; auto].
    destruct (negb (EmployeeUpdateData.has_updates u)); [apply hoare_ret; auto |].
    destruct (EmployeeUpdateData.ph_number u) as [ph|] eqn:Hph.
    + eapply hoare_bind with (R := fun l rows => Inv rows /\ l = SQL.order_by_id rows);
        [apply hoare_query; unfold Inv; tauto |].
      intros l. destruct (existsb _ l) eqn:Hex; [apply hoare_ret; tauto |].
      eapply hoare_weaken; [exact Hperform | | auto | auto].
      intros rows [HI ->]. split; [exact HI |].
      intros v Hv r' Hr' Hid Hp'. injection Hv as <-.
      assert (Hc : existsb (fun emp => py_eq (Row.phNumber emp) (Some ph)
                                       && negb (Row.id emp =? i))
                           (SQL.order_by_id rows) = true)
        by (apply other_phone_existsb; eauto).
      congruence.
    + eapply hoare_weaken; [exact Hperform | | auto | auto].
      intros rows HI. split; [exact HI | discriminate].
  - (* delete *)
    apply method_try_except with (E := Inv); [| auto].
    eapply hoare_bind with (R := fun _ rows => Inv rows);
      [apply hoare_query; auto |].
    intros [r|]; [| apply hoare_ret; auto].
    eapply hoare_bind with (R := fun _ rows => Inv rows);
      [| intros [|]; apply hoare_ret; auto].
    apply hoare_execute; [| auto].
    intros rows [Hids Hph]. simpl. now apply delete_keeps_unique.
Qed.

(** X9. On every engine, every operation keeps the ids unique and the phone
    numbers unique: if the table has no two rows with the same id and no
    two records with the same phone number before the call, it has none
    afterwards. *)
Theorem operations_keep_ids_and_phones_unique (op : Operation) (db : Database) :
  unique_ids (table db) -> unique_phones (table db) ->
  unique_ids (table (snd (perform op db)))
  /\ unique_phones (table (snd (perform op db))).
Proof.
  intros Hids Hph. now apply (operations_keep_unique_spec op db).
Qed.

Lemma sample_rows_unique : unique_ids sample_rows /\ unique_phones sample_rows.
Proof.
  split.
  - unfold unique_ids. simpl. repeat constructor; simpl; intuition lia.
  - intros r1 r2 q H1 H2 Hq1 Hq2. simpl in H1, H2.
    destruct H1 as [<- | [<- | [<- | []]]];
      destruct H2 as [<- | [<- | [<- | []]]]; simpl in *; congruence.
Qed.

Lemma operations_keep_ids_and_phones_unique_witness :
  let db := mkDatabase sample_rows [None; Some "database is locked"] in
  let op := OpUpdate 2 (EmployeeUpdateData.new None None (Some "HR") (Some "555-0199")) in
  unique_ids (table db) /\ unique_phones (table db)
  /\ unique_ids (table (snd (perform op db)))
  /\ unique_phones (table (snd (perform op db))).
Proof.
  intros db op. destruct sample_rows_unique as [Hids Hph].
  split; [exact Hids | split; [exact Hph |]].
  exact (operations_keep_ids_and_phones_unique op db Hids Hph).
Defined.

(** ** The branches for a storage call that matched no row *)

Lemma has_updates_fields (u : EmployeeUpdateData.t) :
  EmployeeUpdateData.has_updates u = true ->
  EmployeeDAL.update_fields (EmployeeUpdateData.fname u) (EmployeeUpdateData.lname u)
    (EmployeeUpdateData.department u) (EmployeeUpdateData.ph_number u) <> [].
Proof.
  destruct u as [[f|] [l|] [d|] [p|]]; simpl; intros H; try discriminate.
Qed.

Lemma find_by_id_rowcount (rows : list Row.t) (i : Z) (r : Row.t) :
  find (fun x => Row.id x =? i) rows = Some r ->
  (0 <? SQL.rowcount_where_id i rows)%nat = true.
Proof.
  intros Hfind. apply find_some in Hfind as [Hin Hid]. apply Z.eqb_eq in Hid.
  subst i. now apply rowcount_where_id_pos.
Qed.

Lemma update_never_anomaly_spec (i : Z) (u : EmployeeUpdateData.t) :
  method_spec (fun _ => True) (EmployeeController.update_employee i u)
    (fun result _ =>
       message result <> Some ("Failed to update employee " ++ Py.str_of_int i)).
Proof.
  unfold EmployeeController.update_employee.
  apply method_try_except with (E := fun _ => True).
  2: { intros e rows _ H. simpl in H. discriminate H. }
  eapply hoare_bind
    with (R := fun a rows => a = find (fun x => Row.id x =? i) rows);
    [apply hoare_query; auto |].
  intros [r|].
  2: { apply hoare_ret. intros rows _ H. simpl in H. discriminate H. }
  destruct (EmployeeUpdateData.has_updates u) eqn:Hu; simpl negb; cbv iota.
  2: { apply hoare_ret. intros rows _ H. simpl in H. discriminate H. }
  assert (Hperform :
    hoare (fun rows => Some r = find (fun x => Row.id x =? i) rows)
          (EmployeeController.perform_update i u)
          (fun result _ =>
             message result <> Some ("Failed to update employee " ++ Py.str_of_int i))
          (fun _ => True)).
  { unfold EmployeeController.perform_update.
    eapply hoare_bind with (R := fun ok _ => ok = true).
    - unfold EmployeeDAL.update_employee.
      pose proof (has_updates_fields u Hu) as Hne.
      destruct (EmployeeDAL.update_fields _ _ _ _); [contradiction |].
      apply hoare_execute; [| auto]. intros rows Hfind. simpl.
      symmetry in Hfind. now apply find_by_id_rowcount in Hfind.
    - intros [|]; apply hoare_ret; intros rows Hok H; simpl in H; discriminate. }
  destruct (EmployeeUpdateData.ph_number u) as [ph|]; [| exact Hperform].
  eapply hoare_bind
    with (R := fun _ rows => Some r = find (fun x => Row.id x =? i) rows);
    [apply hoare_query; auto |].
  intros l. destruct (existsb _ l); [| exact Hperform].
  apply hoare_ret. intros rows _ H. simpl in H. discriminate H.
Qed.

Lemma delete_never_anomaly_spec (i : Z) :
  method_spec (fun _ => True) (EmployeeController.delete_employee i)
    (fun result _ =>
       message result <> Some ("Failed to delete employee " ++ Py.str_of_int i)).
Proof.
  unfold EmployeeController.delete_employee.
  apply method_try_except with (E := fun _ => True).
  2: { intros e rows _ H. simpl in H. discriminate H. }
  eapply hoare_bind
    with (R := fun a rows => a = find (fun x => Row.id x =? i) rows);
    [apply hoare_query; auto |].
  intros [r|].
  2: { apply hoare_ret. intros rows _ H. simpl in H. discriminate H. }
  eapply hoare_bind with (R := fun ok _ => ok = true).
  - apply hoare_execute; [| auto]. intros rows Hfind. simpl.
    symmetry in Hfind. now apply find_by_id_rowcount in Hfind.
  - intros [|]; apply hoare_ret; intros rows Hok H; simpl in H; discriminate.
Qed.

(** X10. On every engine, Update never answers "Failed to update employee <id>"
    and Delete never answers "Failed to delete employee <id>": once the
    existence check has found the record, the storage call that follows
    matches a row (or raises, which gives the message with a colon and a
    cause). *)
Theorem storage_anomaly_branches_unreachable (i : Z) (u : EmployeeUpdateData.t)
    (db : Database) :
  message (fst (EmployeeController.update_employee i u db))
  <> Some ("Failed to update employee " ++ Py.str_of_int i)
  /\ message (fst (EmployeeController.delete_employee i db))
     <> Some ("Failed to delete employee " ++ Py.str_of_int i).
Proof.
  split.
  - now apply (update_never_anomaly_spec i u db).
  - now apply (delete_never_anomaly_spec i db).
Qed.

(* ================================================================== *)
(** * Reading, creating, updating and deleting one record *)
(* ================================================================== *)

Lemma same_id_same_row (rows : list Row.t) (r1 r2 : Row.t) :
  unique_ids rows -> In r1 rows -> In r2 rows -> Row.id r1 = Row.id r2 -> r1 = r2.
Proof.
  unfold unique_ids. induction rows as [|x rows IH]; simpl; [contradiction |].
  intros Hnd H1 H2 Hid. inversion Hnd as [|? ? Hnotin Hrest]; subst.
  destruct H1 as [<- | H1], H2 as [<- | H2]; trivial.
  - exfalso. apply Hnotin. rewrite Hid. now apply in_map.
  - exfalso. apply Hnotin. rewrite <- Hid. now apply in_map.
  - now apply IH.
Qed.

Lemma find_by_id_unique (rows : list Row.t) (r : Row.t) :
  unique_ids rows -> In r rows ->
  find (fun x => Row.id x =? Row.id r) rows = Some r.
Proof.
  intros Hids Hin.
  destruct (find_by_id_Some rows (Row.id r)) as [r0 Hr0]; [now exists r |].
  rewrite Hr0. f_equal. apply find_some in Hr0 as [Hin0 Hid0].
  apply Z.eqb_eq in Hid0. now apply (same_id_same_row rows).
Qed.

(** X1. Get on an engine that does not fail, for an id in the range of
    SQLite's signed 64-bit integers (binding an id outside it raises
    [OverflowError], which the model of the engine does not have): an id that
    no row has is answered "not found"; the id of a stored row is answered
    with that row as an employee (its strings stripped).  The table is not
    changed. *)
Theorem get_employee_by_id_outcomes (rows : list Row.t) (i : Z) :
  sqlite_integer i ->
  ((forall r, In r rows -> Row.id r <> i) ->
   EmployeeController.get_employee i (healthy rows) =
   (plain false ("Employee with ID " ++ Py.str_of_int i ++ " not found"),
    healthy rows))
  /\
  (forall r, unique_ids rows -> In r rows -> Row.id r = i ->
   EmployeeController.get_employee i (healthy rows) =
   (mkEnvelope true (Some "Employee retrieved successfully") None None
               (Some (Employee.from_dict r)) None None None,
    healthy rows)).
Proof.
  intros _. unfold EmployeeController.get_employee, try_except. split.
  - intros Hno. run_healthy. now rewrite (find_by_id_None rows i Hno).
  - intros r Hids Hin <-. run_healthy. now rewrite (find_by_id_unique rows r Hids Hin).
Qed.

Lemma get_employee_by_id_outcomes_witness :
  (sqlite_integer 3 /\ unique_ids sample_rows
   /\ EmployeeController.get_employee 3 (healthy sample_rows) =
      (mkEnvelope true (Some "Employee retrieved successfully") None None
                  (Some (Employee.mk (Some 3) "Anna" "Lee" "Marketing" "555-0103"))
                  None None None,
       healthy sample_rows))
  /\
  (sqlite_integer 7 /\ (forall r, In r sample_rows -> Row.id r <> 7)
   /\ EmployeeController.get_employee 7 (healthy sample_rows) =
      (plain false "Employee with ID 7 not found", healthy sample_rows)).
Proof.
  destruct sample_rows_unique as [Hids _].
  assert (H3 : sqlite_integer 3) by (unfold sqlite_integer; lia).
  assert (H7 : sqlite_integer 7) by (unfold sqlite_integer; lia).
  assert (Hno : forall r, In r sample_rows -> Row.id r <> 7).
  { intros r Hr. simpl in Hr.
    destruct Hr as [<- | [<- | [<- | []]]]; simpl; discriminate. }
  split.
  - split; [exact H3 | split; [exact Hids |]].
    rewrite (proj2 (get_employee_by_id_outcomes sample_rows 3 H3)
               (Row.mk 3 (Some "Anna") (Some "Lee") (Some "Marketing") (Some "555-0103"))
               Hids); [reflexivity | simpl; auto | reflexivity].
  - split; [exact H7 | split; [exact Hno |]].
    exact (proj1 (get_employee_by_id_outcomes sample_rows 7 H7) Hno).
Defined.

(** ** Create, then Get *)

Lemma create_employee_success (rows : list Row.t) (f l d p : string) :
  Employee.is_valid (Employee.new None (Some f) (Some l) (Some d) (Some p)) = true ->
  (forall r, In r rows -> Row.phNumber r <> Some p) ->
  EmployeeController.create_employee f l d p (healthy rows) =
  (mkEnvelope true
     (Some ("Employee created successfully with ID: "
            ++ Py.str_of_int (SQL.next_rowid rows)))
     None (Some (SQL.next_rowid rows)) None None None None,
   healthy (rows ++ [Row.mk (SQL.next_rowid rows) (Some f) (Some l) (Some d) (Some p)])).
Proof.
  intros Hv Hfree. unfold EmployeeController.create_employee, try_except.
  rewrite Hv. cbn [negb]. run_healthy.
  destruct (existsb _ (SQL.order_by_id rows)) eqn:E.
  - apply phone_collision_existsb in E as [r [Hin Hr]].
    exfalso. exact (Hfree r Hin Hr).
  - run_healthy. reflexivity.
Qed.

Lemma find_appended (rows : list Row.t) (x : Row.t) :
  (forall r, In r rows -> Row.id r <> Row.id x) ->
  find (fun r => Row.id r =? Row.id x) (rows ++ [x]) = Some x.
Proof.
  induction rows as [|y rows IH]; simpl; intros Hno.
  - now rewrite Z.eqb_refl.
  - destruct (Row.id y =? Row.id x) eqn:E.
    + apply Z.eqb_eq in E. exfalso. apply (Hno y); auto.
    + apply IH. intros r Hr. apply Hno. now right.
Qed.

(** X2. Create followed by Get, on an engine that does not fail.  When the
    four strings are not blank and no stored row has the phone number given,
    Create succeeds, the table has one row more, and Get on the id that
    Create returned succeeds with the employee whose fields are the
    stripped arguments. *)
Theorem create_then_get (rows : list Row.t) (f l d p : string) :
  Employee.is_valid (Employee.new None (Some f) (Some l) (Some d) (Some p)) = true ->
  (forall r, In r rows -> Row.phNumber r <> Some p) ->
  let created := EmployeeController.create_employee f l d p (healthy rows) in
  exists new_id,
    success (fst created) = true
    /\ employee_id (fst created) = Some new_id
    /\ List.length (table (snd created)) = S (List.length rows)
    /\ fst (EmployeeController.get_employee new_id (snd created)) =
       mkEnvelope true (Some "Employee retrieved successfully") None None
         (Some (Employee.mk (Some new_id)
                  (Py.strip f) (Py.strip l) (Py.strip d) (Py.strip p)))
         None None None.
Proof.
  intros Hv Hfree created. subst created.
  rewrite (create_employee_success rows f l d p Hv Hfree).
  exists (SQL.next_rowid rows). simpl fst. simpl snd.
  split; [reflexivity | split; [reflexivity | split]].
  - simpl. rewrite length_app. simpl. lia.
  - unfold EmployeeController.get_employee, try_except. run_healthy.
    set (x := Row.mk (SQL.next_rowid rows) (Some f) (Some l) (Some d) (Some p)).
    change (SQL.next_rowid rows) with (Row.id x) at 1.
    rewrite find_appended; [reflexivity |].
    intros r Hr. pose proof (next_rowid_fresh rows r Hr). simpl. lia.
Qed.

Lemma create_then_get_witness :
  Employee.is_valid
    (Employee.new None (Some " Jane ") (Some "Smith") (Some "HR") (Some "555-0199")) = true
  /\ (forall r, In r sample_rows -> Row.phNumber r <> Some "555-0199")
  /\ exists new_id,
       success (fst (EmployeeController.create_employee
                       " Jane " "Smith" "HR" "555-0199" (healthy sample_rows))) = true
       /\ employee_id (fst (EmployeeController.create_employee
                              " Jane " "Smith" "HR" "555-0199" (healthy sample_rows)))
          = Some new_id
       /\ List.length (table (snd (EmployeeController.create_employee
                                    " Jane " "Smith" "HR" "555-0199"
                                    (healthy sample_rows))))
          = S (List.length sample_rows)
       /\ fst (EmployeeController.get_employee new_id
                 (snd (EmployeeController.create_employee
                         " Jane " "Smith" "HR" "555-0199" (healthy sample_rows)))) =
          mkEnvelope true (Some "Employee retrieved successfully") None None
            (Some (Employee.mk (Some new_id)
                     (Py.strip " Jane ") (Py.strip "Smith") (Py.strip "HR")
                     (Py.strip "555-0199")))
            None None None.
Proof.
  assert (Hfree : forall r, In r sample_rows -> Row.phNumber r <> Some "555-0199").
  { intros r Hr. simpl in Hr.
    destruct Hr as [<- | [<- | [<- | []]]]; simpl; discriminate. }
  split; [reflexivity | split; [exact Hfree |]].
  exact (create_then_get sample_rows " Jane " "Smith" "HR" "555-0199" eq_refl Hfree).
Defined.

(** ** Delete *)

Lemma delete_one_length (rows : list Row.t) (r : Row.t) :
  unique_ids rows -> In r rows ->
  S (List.length (filter (fun x => negb (Row.id x =? Row.id r)) rows))
  = List.length rows.
Proof.
  unfold unique_ids. induction rows as [|y rows IH]; simpl; [contradiction |].
  intros Hnd Hin. inversion Hnd as [|? ? Hnotin Hrest]; subst.
  destruct Hin as [-> | Hin].
  - rewrite Z.eqb_refl. simpl. f_equal. f_equal.
    apply delete_where_id_absent. intros x Hx Hid.
    apply Hnotin. rewrite <- Hid. now apply in_map.
  - destruct (Row.id y =? Row.id r) eqn:E; simpl.
    + apply Z.eqb_eq in E. exfalso. apply Hnotin. rewrite E. now apply in_map.
    + f_equal. now apply IH.
Qed.

(** X3. Delete on an engine that does not fail, on a table with unique ids.
    Deleting a stored record succeeds; afterwards the table holds the other
    rows and only them, it is one row shorter, and Get on the deleted id is
    answered "not found". *)
Theorem delete_existing_employee (rows : list Row.t) (r : Row.t) :
  unique_ids rows -> In r rows ->
  let deleted := EmployeeController.delete_employee (Row.id r) (healthy rows) in
  fst deleted =
    plain true ("Employee " ++ Py.str_of_int (Row.id r) ++ " deleted successfully")
  /\ (forall x, In x (table (snd deleted)) <-> In x rows /\ x <> r)
  /\ S (List.length (table (snd deleted))) = List.length rows
  /\ fst (EmployeeController.get_employee (Row.id r) (snd deleted)) =
     plain false ("Employee with ID " ++ Py.str_of_int (Row.id r) ++ " not found").
Proof.
  intros Hids Hin deleted.
  assert (Hdel : deleted =
    (plain true ("Employee " ++ Py.str_of_int (Row.id r) ++ " deleted successfully"),
     healthy (filter (fun x => negb (Row.id x =? Row.id r)) rows))).
  { subst deleted. unfold EmployeeController.delete_employee, try_except.
    run_healthy. rewrite (find_by_id_unique rows r Hids Hin). run_healthy.
    now rewrite (rowcount_where_id_pos rows r Hin). }
  rewrite Hdel. simpl fst. simpl snd. split; [reflexivity | split; [| split]].
  - intros x. simpl. rewrite filter_In, negb_true_iff, Z.eqb_neq. split.
    + intros [Hx Hid]. split; [exact Hx |]. intros ->. now apply Hid.
    + intros [Hx Hne]. split; [exact Hx |]. intros Hid. apply Hne.
      now apply (same_id_same_row rows).
  - simpl. now apply delete_one_length.
  - unfold EmployeeController.get_employee, try_except. run_healthy.
    rewrite find_by_id_None; [reflexivity |].
    intros x Hx. apply filter_In in Hx as [_ Hx].
    now apply negb_true_iff, Z.eqb_neq in Hx.
Qed.

Lemma delete_existing_employee_witness :
  unique_ids sample_rows
  /\ In (Row.mk 2 (Some "Anna") (Some "Lee") (Some "Engineering") (Some "555-0102"))
        sample_rows
  /\ S (List.length (table (snd (EmployeeController.delete_employee 2
                                   (healthy sample_rows)))))
     = List.length sample_rows.
Proof.
  destruct sample_rows_unique as [Hids _].
  assert (Hin : In (Row.mk 2 (Some "Anna") (Some "Lee") (Some "Engineering")
                           (Some "555-0102")) sample_rows) by (simpl; auto).
  split; [exact Hids | split; [exact Hin |]].
  exact (proj1 (proj2 (proj2 (delete_existing_employee sample_rows _ Hids Hin)))).
Defined.

(** X4. Delete of an id that no row has, on an engine that does not fail, is
    answered "not found" and changes nothing.  The id is in the range of
    SQLite's signed 64-bit integers: binding an id outside it raises
    [OverflowError], which the model of the engine does not have. *)
Theorem delete_absent_employee (rows : list Row.t) (i : Z) :
  sqlite_integer i ->
  (forall r, In r rows -> Row.id r <> i) ->
  EmployeeController.delete_employee i (healthy rows) =
  (plain false ("Employee with ID " ++ Py.str_of_int i ++ " not found"),
   healthy rows).
Proof.
  intros _ Hno. unfold EmployeeController.delete_employee, try_except. run_healthy.
  now rewrite (find_by_id_None rows i Hno).
Qed.

Lemma delete_absent_employee_witness :
  sqlite_integer 7
  /\ (forall r, In r sample_rows -> Row.id r <> 7)
  /\ EmployeeController.delete_employee 7 (healthy sample_rows) =
     (plain false "Employee with ID 7 not found", healthy sample_rows).
Proof.
  assert (H7 : sqlite_integer 7) by (unfold sqlite_integer; lia).
  assert (Hno : forall r, In r sample_rows -> Row.id r <> 7).
  { intros r Hr. simpl in Hr.
    destruct Hr as [<- | [<- | [<- | []]]]; simpl; discriminate. }
  split; [exact H7 | split; [exact Hno |]].
  exact (delete_absent_employee sample_rows 7 H7 Hno).
Defined.

(** ** Update *)

Lemma update_employee_success (rows : list Row.t) (r : Row.t)
    (u : EmployeeUpdateData.t) :
  In r rows ->
  EmployeeUpdateData.has_updates u = true ->
  (forall p, EmployeeUpdateData.ph_number u = Some p ->
             forall r', In r' rows -> Row.id r' <> Row.id r ->
                        Row.phNumber r' <> Some p) ->
  EmployeeController.update_employee (Row.id r) u (healthy rows) =
  (plain true ("Employee " ++ Py.str_of_int (Row.id r) ++ " updated successfully"),
   healthy
     (map (fun x =>
             if Row.id x =? Row.id r then
               Row.mk (Row.id x)
                 (match EmployeeUpdateData.fname u with
                  | Some v => Some v | None => Row.fname x end)
                 (match EmployeeUpdateData.lname u with
                  | Some v => Some v | None => Row.lname x end)
                 (match EmployeeUpdateData.department u with
                  | Some v => Some v | None => Row.department x end)
                 (match EmployeeUpdateData.ph_number u with
                  | Some v => Some v | None => Row.phNumber x end)
             else x)
          rows)).
Proof.
  intros Hin Hu Hfree.
  destruct (find_by_id_Some rows (Row.id r)) as [r0 Hr0]; [now exists r |].
  assert (Hperform :
    EmployeeController.perform_update (Row.id r) u (healthy rows) =
    (Return (plain true ("Employee " ++ Py.str_of_int (Row.id r)
                         ++ " updated successfully")),
     healthy (SQL.update_where_id
                (EmployeeDAL.update_fields (EmployeeUpdateData.fname u)
                   (EmployeeUpdateData.lname u) (EmployeeUpdateData.department u)
                   (EmployeeUpdateData.ph_number u))
                (Row.id r) rows))).
  { unfold EmployeeController.perform_update, EmployeeDAL.update_employee.
    pose proof (has_updates_fields u Hu) as Hne.
    destruct (EmployeeDAL.update_fields _ _ _ _) as [|a fields] eqn:E;
      [contradiction |].
    run_healthy. now rewrite (rowcount_where_id_pos rows r Hin). }
  assert (Hmap : forall fields,
    fields = EmployeeDAL.update_fields (EmployeeUpdateData.fname u)
               (EmployeeUpdateData.lname u) (EmployeeUpdateData.department u)
               (EmployeeUpdateData.ph_number u) ->
    SQL.update_where_id fields (Row.id r) rows =
    map (fun x =>
           if Row.id x =? Row.id r then
             Row.mk (Row.id x)
               (match EmployeeUpdateData.fname u with
                | Some v => Some v | None => Row.fname x end)
               (match EmployeeUpdateData.lname u with
                | Some v => Some v | None => Row.lname x end)
               (match EmployeeUpdateData.department u with
                | Some v => Some v | None => Row.department x end)
               (match EmployeeUpdateData.ph_number u with
                | Some v => Some v | None => Row.phNumber x end)
           else x) rows).
  { intros fields ->. unfold SQL.update_where_id. apply map_ext. intros x.
    now rewrite updated_row. }
  unfold EmployeeController.update_employee, try_except.
  run_healthy. rewrite Hr0, Hu. cbn [negb].
  destruct (EmployeeUpdateData.ph_number u) as [p|] eqn:Hp.
  - run_healthy.
    destruct (existsb _ (SQL.order_by_id rows)) eqn:E.
    + apply other_phone_existsb in E as [r' [Hin' [Hid' Hp']]].
      exfalso. exact (Hfree p eq_refl r' Hin' Hid' Hp').
    + rewrite Hperform. now rewrite (Hmap _ eq_refl).
  - rewrite Hperform. now rewrite (Hmap _ eq_refl).
Qed.

(** X5. Update on an engine that does not fail.  When the record exists, the
    request has a field and its phone number (if it has one) is not the
    number of a record with another id, Update succeeds and the table
    afterwards is the table before with the rows of that id rewritten:
    each field of the request that is present replaces the stored value,
    each field that is absent leaves the stored value as it was; the id
    and the rows of other ids are untouched. *)
Theorem update_writes_present_fields_only (rows : list Row.t) (r : Row.t)
    (u : EmployeeUpdateData.t) :
  In r rows ->
  EmployeeUpdateData.has_updates u = true ->
  (forall p, EmployeeUpdateData.ph_number u = Some p ->
             forall r', In r' rows -> Row.id r' <> Row.id r ->
                        Row.phNumber r' <> Some p) ->
  EmployeeController.update_employee (Row.id r) u (healthy rows) =
  (plain true ("Employee " ++ Py.str_of_int (Row.id r) ++ " updated successfully"),
   healthy
     (map (fun x =>
             if Row.id x =? Row.id r then
               Row.mk (Row.id x)
                 (match EmployeeUpdateData.fname u with
                  | Some v => Some v | None => Row.fname x end)
                 (match EmployeeUpdateData.lname u with
                  | Some v => Some v | None => Row.lname x end)
                 (match EmployeeUpdateData.department u with
                  | Some v => Some v | None => Row.department x end)
                 (match EmployeeUpdateData.ph_number u with
                  | Some v => Some v | None => Row.phNumber x end)
             else x)
          rows)).
Proof. apply update_employee_success. Qed.

Lemma update_writes_present_fields_only_witness :
  let u := EmployeeUpdateData.new None None (Some "HR") None in
  In (Row.mk 1 (Some "John") (Some "Doe") (Some "Engineering") (Some "555-0101"))
     sample_rows
  /\ EmployeeUpdateData.has_updates u = true
  /\ table (snd (EmployeeController.update_employee 1 u (healthy sample_rows))) =
     [ Row.mk 1 (Some "John") (Some "Doe") (Some "HR") (Some "555-0101");
       Row.mk 2 (Some "Anna") (Some "Lee") (Some "Engineering") (Some "555-0102");
       Row.mk 3 (Some "Anna") (Some "Lee") (Some "Marketing") (Some "555-0103") ].
Proof.
  intros u.
  assert (Hin : In (Row.mk 1 (Some "John") (Some "Doe") (Some "Engineering")
                           (Some "555-0101")) sample_rows) by (simpl; auto).
  split; [exact Hin | split; [reflexivity |]].
  pose proof (update_writes_present_fields_only sample_rows _ u Hin eq_refl) as H.
  cbn [Row.id] in H. rewrite H; [reflexivity |].
  intros p Hp. discriminate Hp.
Defined.

Lemma find_map_same_id (g : Row.t -> Row.t) (i : Z) (rows : list Row.t) :
  (forall x, Row.id (g x) = Row.id x) ->
  find (fun x => Row.id x =? i) (map g rows)
  = option_map g (find (fun x => Row.id x =? i) rows).
Proof.
  intros Hg. induction rows as [|x rows IH]; simpl; [reflexivity |].
  rewrite Hg. destruct (Row.id x =? i); [reflexivity | exact IH].
Qed.

(** X6. Update followed by Get, on an engine that does not fail and a table
    with unique ids: after a successful Update, Get on the same id returns
    the employee with the new value in every field the request had and the
    value stored before in every other field. *)
Theorem update_then_get (rows : list Row.t) (r : Row.t) (u : EmployeeUpdateData.t) :
  unique_ids rows ->
  In r rows ->
  EmployeeUpdateData.has_updates u = true ->
  (forall p, EmployeeUpdateData.ph_number u = Some p ->
             forall r', In r' rows -> Row.id r' <> Row.id r ->
                        Row.phNumber r' <> Some p) ->
  let updated := EmployeeController.update_employee (Row.id r) u (healthy rows) in
  success (fst updated) = true
  /\ fst (EmployeeController.get_employee (Row.id r) (snd updated)) =
     mkEnvelope true (Some "Employee retrieved successfully") None None
       (Some (Employee.from_dict
                (Row.mk (Row.id r)
                   (match EmployeeUpdateData.fname u with
                    | Some v => Some v | None => Row.fname r end)
                   (match EmployeeUpdateData.lname u with
                    | Some v => Some v | None => Row.lname r end)
                   (match EmployeeUpdateData.department u with
                    | Some v => Some v | None => Row.department r end)
                   (match EmployeeUpdateData.ph_number u with
                    | Some v => Some v | None => Row.phNumber r end))))
       None None None.
Proof.
  intros Hids Hin Hu Hfree updated. subst updated.
  rewrite (update_employee_success rows r u Hin Hu Hfree). simpl fst. simpl snd.
  split; [reflexivity |].
  unfold EmployeeController.get_employee, try_except. run_healthy.
  rewrite find_map_same_id.
  - rewrite (find_by_id_unique rows r Hids Hin). simpl.
    now rewrite Z.eqb_refl.
  - intros x. now destruct (Row.id x =? Row.id r).
Qed.

Lemma update_then_get_witness :
  let u := EmployeeUpdateData.new (Some " Johnny ") None None (Some "555-0177") in
  let r := Row.mk 1 (Some "John") (Some "Doe") (Some "Engineering") (Some "555-0101") in
  unique_ids sample_rows /\ In r sample_rows
  /\ EmployeeUpdateData.has_updates u = true
  /\ employee (fst (EmployeeController.get_employee 1
                      (snd (EmployeeController.update_employee 1 u
                              (healthy sample_rows)))))
     = Some (Employee.mk (Some 1) "Johnny" "Doe" "Engineering" "555-0177").
Proof.
  intros u r. destruct sample_rows_unique as [Hids _].
  assert (Hin : In r sample_rows) by (simpl; auto).
  split; [exact Hids | split; [exact Hin | split; [reflexivity |]]].
  assert (Hfree : forall p, EmployeeUpdateData.ph_number u = Some p ->
                            forall r', In r' sample_rows -> Row.id r' <> Row.id r ->
                                       Row.phNumber r' <> Some p).
  { intros p Hp r' Hr' _. injection Hp as <-. simpl in Hr'.
    destruct Hr' as [<- | [<- | [<- | []]]]; simpl; discriminate. }
  pose proof (proj2 (update_then_get sample_rows r u Hids Hin eq_refl Hfree)) as H.
  cbn [Row.id r] in H. unfold r in H. cbn [Row.id] in H. rewrite H. reflexivity.
Defined.

(* ================================================================== *)
(** * Statistics *)
(* ================================================================== *)

Lemma dict_set_fresh {V} (d : list (string * V)) (key : string) (value : V) :
  ~ In key (map fst d) -> dict_set d key value = (d ++ [(key, value)])%list.
Proof.
  induction d as [|[k v] d IH]; simpl; intros Hfresh; [reflexivity |].
  destruct (String.eqb k key) eqn:E.
  - apply String.eqb_eq in E. exfalso. apply Hfresh. now left.
  - f_equal. apply IH. intros Hin. apply Hfresh. now right.
Qed.

Lemma order_by_id_length (rows : list Row.t) :
  List.length (SQL.order_by_id rows) = List.length rows.
Proof. apply Permutation_length, order_by_id_perm. Qed.

Lemma statistics_loop (rows : list Row.t) (depts : list string)
    (counts : list (string * nat)) :
  NoDup depts ->
  (forall d, In d depts -> ~ In d (map fst counts)) ->
  for_each depts
    (fun dept department_counts =>
       dept_employees <- EmployeeDAL.get_employees_by_department dept ;;
       ret (dict_set department_counts dept (List.length dept_employees)))
    counts (healthy rows) =
  (Return
     (counts ++
      map (fun d =>
             (d, List.length
                   (filter (fun r => SQL.text_eq (Row.department r) d) rows)))
          depts)%list,
   healthy rows).
Proof.
  revert counts. induction depts as [|d depts IH]; intros counts Hnd Hfresh; simpl.
  - unfold ret. now rewrite app_nil_r.
  - inversion Hnd as [|? ? Hnotin Hrest]; subst.
    unfold bind at 1. unfold EmployeeDAL.get_employees_by_department.
    rewrite bind_query_healthy. unfold ret at 1.
    rewrite dict_set_fresh by (apply Hfresh; now left).
    rewrite order_by_id_length, IH; trivial.
    + now rewrite <- app_assoc.
    + intros d' Hd' Hin. rewrite map_app, in_app_iff in Hin. simpl in Hin.
      destruct Hin as [Hin | [-> | []]].
      * apply (Hfresh d'); [now right | exact Hin].
      * contradiction.
Qed.

Lemma list_sum_zero {A} (l : list A) : list_sum (map (fun _ => 0%nat) l) = 0%nat.
Proof. induction l; simpl; auto. Qed.

Lemma list_sum_plus {A} (f g : A -> nat) (l : list A) :
  list_sum (map (fun x => (f x + g x)%nat) l)
  = (list_sum (map f l) + list_sum (map g l))%nat.
Proof. induction l as [|x l IH]; simpl; [reflexivity | rewrite IH; lia]. Qed.

Lemma indicator_sum (column : option string) (keys : list string) :
  NoDup keys ->
  (forall d, column = Some d -> In d keys) ->
  list_sum (map (fun d => if SQL.text_eq column d then 1%nat else 0%nat) keys)
  = match column with Some _ => 1%nat | None => 0%nat end.
Proof.
  destruct column as [d0|]; simpl; [| intros _ _; apply list_sum_zero].
  intros Hnd Hin. specialize (Hin d0 eq_refl).
  induction keys as [|k keys IH]; simpl; [contradiction |].
  inversion Hnd as [|? ? Hnotin Hrest]; subst.
  destruct (String.eqb d0 k) eqn:E.
  - apply String.eqb_eq in E. subst k.
    rewrite (map_ext_in _ (fun _ => 0%nat)); [now rewrite list_sum_zero |].
    intros k Hk. destruct (String.eqb d0 k) eqn:E'; [| reflexivity].
    apply String.eqb_eq in E'. subst k. contradiction.
  - destruct Hin as [-> | Hin]; [now rewrite String.eqb_refl in E |].
    now apply IH.
Qed.

Lemma department_counts_sum (rows : list Row.t) (keys : list string) :
  NoDup keys ->
  (forall r d, In r rows -> Row.department r = Some d -> In d keys) ->
  list_sum
    (map (fun d => List.length
                     (filter (fun r => SQL.text_eq (Row.department r) d) rows))
         keys)
  = List.length
      (filter (fun r => EmployeeUpdateData.is_not_None (Row.department r)) rows).
Proof.
  intros Hnd. induction rows as [|r rows IH]; intros Hin.
  - simpl. apply list_sum_zero.
  - rewrite (map_ext _
       (fun d => ((if SQL.text_eq (Row.department r) d then 1 else 0)
                  + List.length
                      (filter (fun r => SQL.text_eq (Row.department r) d) rows))%nat)).
    2: { intros d. simpl. now destruct (SQL.text_eq (Row.department r) d). }
    rewrite list_sum_plus, IH, indicator_sum; trivial.
    + simpl. now destruct (Row.department r).
    + intros d Hd. apply (Hin r d); [now left | exact Hd].
    + intros r' d Hr'. apply Hin. now right.
Qed.

Lemma filter_departments_not_null (rows : list Row.t) :
  (forall r, In r rows -> Row.department r <> None) ->
  filter (fun r => EmployeeUpdateData.is_not_None (Row.department r)) rows = rows.
Proof.
  induction rows as [|r rows IH]; simpl; intros Hnn; [reflexivity |].
  destruct (Row.department r) eqn:E; simpl.
  - f_equal. apply IH. intros r' Hr'. apply Hnn. now right.
  - exfalso. apply (Hnn r); [now left | exact E].
Qed.

Lemma get_departments_distinct_sorted_non_null_aux (rows : list Row.t) :
  exists depts,
    EmployeeDAL.get_departments (healthy rows) = (Return depts, healthy rows)
    /\ NoDup depts
    /\ (forall d, In d depts <-> exists r, In r rows /\ Row.department r = Some d).
Proof.
  unfold EmployeeDAL.get_departments. rewrite query_healthy.
  eexists. split; [reflexivity |]. split.
  - eapply Permutation_NoDup; [apply Permutation_sym, order_by_perm |].
    apply NoDup_nodup.
  - intros d. unfold SQL.order_by_text. rewrite order_by_In.
    unfold SQL.distinct. rewrite nodup_In, in_flat_map. split.
    + intros [r [Hin Hd]]. exists r. split; [exact Hin |].
      destruct (Row.department r) as [v|]; simpl in Hd; [| contradiction].
      destruct Hd as [-> | []]. reflexivity.
    + intros [r [Hin Hd]]. exists r. split; [exact Hin |].
      rewrite Hd. simpl. auto.
Qed.

(** X11. Statistics on an engine that does not fail.  The total is the number of
    rows; the department list is the one ListDepartments returns and the
    number of departments is its length; the mapping has one entry per
    listed department, in the order of the list, with the number of rows of
    exactly that department; and the counts add up to the number of rows
    whose department is not null, which is the total when no department is
    null. *)
Theorem statistics_counts (rows : list Row.t) :
  exists depts counts,
    EmployeeDAL.get_departments (healthy rows) = (Return depts, healthy rows)
    /\ EmployeeController.get_employee_statistics (healthy rows) =
       (mkEnvelope true None None None None None
          (Some (mkStatistics (List.length rows) (List.length depts) depts counts))
          None,
        healthy rows)
    /\ counts =
       map (fun d =>
              (d, List.length
                    (filter (fun r => SQL.text_eq (Row.department r) d) rows)))
           depts
    /\ list_sum (map snd counts)
       = List.length
           (filter (fun r => EmployeeUpdateData.is_not_None (Row.department r)) rows)
    /\ ((forall r, In r rows -> Row.department r <> None) ->
        list_sum (map snd counts) = List.length rows).
Proof.
  destruct (get_departments_distinct_sorted_non_null_aux rows)
    as [depts [Hdepts [Hnd Hmem]]].
  exists depts.
  exists (map (fun d =>
                 (d, List.length
                       (filter (fun r => SQL.text_eq (Row.department r) d) rows)))
              depts).
  assert (Hsum :
    list_sum
      (map snd
         (map (fun d =>
                 (d, List.length
                       (filter (fun r => SQL.text_eq (Row.department r) d) rows)))
              depts))
    = List.length
        (filter (fun r => EmployeeUpdateData.is_not_None (Row.department r)) rows)).
  { rewrite map_map. simpl. apply department_counts_sum; trivial.
    intros r d Hr Hd. apply Hmem. eauto. }
  split; [exact Hdepts | split; [| split; [reflexivity | split; [exact Hsum |]]]].
  - unfold EmployeeController.get_employee_statistics, try_except.
    unfold EmployeeDAL.get_employee_count. rewrite bind_query_healthy.
    unfold bind at 1. rewrite Hdepts. unfold bind at 1.
    rewrite statistics_loop; [reflexivity | exact Hnd | intros d _ []].
  - intros Hnn. rewrite Hsum. now rewrite filter_departments_not_null.
Qed.

Lemma statistics_counts_witness :
  (forall r, In r sample_rows -> Row.department r <> None)
  /\ exists depts counts,
       EmployeeController.get_employee_statistics (healthy sample_rows) =
       (mkEnvelope true None None None None None
          (Some (mkStatistics (List.length sample_rows) (List.length depts)
                              depts counts))
          None,
        healthy sample_rows)
       /\ list_sum (map snd counts) = List.length sample_rows.
Proof.
  assert (Hnn : forall r, In r sample_rows -> Row.department r <> None).
  { intros r Hr. simpl in Hr.
    destruct Hr as [<- | [<- | [<- | []]]]; simpl; discriminate. }
  split; [exact Hnn |].
  destruct (statistics_counts sample_rows)
    as [depts [counts [_ [Hstat [_ [_ Hall]]]]]].
  exists depts, counts. split; [exact Hstat | exact (Hall Hnn)].
Defined.

(* ================================================================== *)
(** * Search by department and search by name *)
(* ================================================================== *)

(** X12. Search with a department and no term, on an engine that does not
    fail, succeeds and reports the number of records it returns.  The
    records returned are a selection of the table: each row whose
    department is the filter is returned as often as the table has it, no
    other row is returned, and the order is ascending by id. *)
Theorem search_by_department (rows : list Row.t)
    (search_criteria : EmployeeSearchCriteria.t) :
  EmployeeSearchCriteria.has_search_term search_criteria = false ->
  EmployeeSearchCriteria.has_department_filter search_criteria = true ->
  exists matching rest,
    EmployeeController.search_employees search_criteria (healthy rows) =
    (mkEnvelope true
       (Some ("Found " ++ Py.str_of_len matching ++ " matching employees"))
       None None None (Some (map Employee.from_dict matching)) None None,
     healthy rows)
    /\ selection rows matching rest
    /\ (forall r, In r matching ->
          Row.department r
          = Some (EmployeeSearchCriteria.department search_criteria))
    /\ (forall r, In r rest ->
          Row.department r
          <> Some (EmployeeSearchCriteria.department search_criteria))
    /\ StronglySorted (fun r1 r2 => Row.id r1 <= Row.id r2) matching.
Proof.
  intros Hterm Hdept.
  set (f := fun r => SQL.text_eq (Row.department r)
                       (EmployeeSearchCriteria.department search_criteria)).
  exists (SQL.order_by_id (filter f rows)).
  exists (filter (fun r => negb (f r)) rows).
  split; [| split; [| split; [| split]]].
  - unfold EmployeeController.search_employees, try_except,
      EmployeeSearchCriteria.is_empty.
    rewrite Hterm, Hdept. cbn [negb andb].
    unfold bind at 1. run_healthy. unfold ret, Py.str_of_len.
    now rewrite length_map.
  - apply sorted_filter_selection.
  - intros r Hr. apply (proj1 (order_by_id_In _ r)) in Hr.
    apply filter_In in Hr as [_ Hd]. unfold f, SQL.text_eq in Hd.
    destruct (Row.department r) as [v|]; [| discriminate].
    apply String.eqb_eq in Hd. now subst.
  - intros r Hr Hd. apply filter_In in Hr as [_ Hn].
    unfold f, SQL.text_eq in Hn. rewrite Hd, String.eqb_refl in Hn. discriminate.
  - apply order_by_id_ascending.
Qed.

Lemma search_by_department_witness :
  EmployeeSearchCriteria.has_search_term (EmployeeSearchCriteria.new " " "Marketing")
  = false
  /\ EmployeeSearchCriteria.has_department_filter
       (EmployeeSearchCriteria.new " " "Marketing") = true
  /\ exists matching rest,
       EmployeeController.search_employees
         (EmployeeSearchCriteria.new " " "Marketing") (healthy sample_rows) =
       (mkEnvelope true
          (Some ("Found " ++ Py.str_of_len matching ++ " matching employees"))
          None None None (Some (map Employee.from_dict matching)) None None,
        healthy sample_rows)
       /\ selection sample_rows matching rest
       /\ (forall r, In r matching -> Row.department r = Some "Marketing")
       /\ (forall r, In r rest -> Row.department r <> Some "Marketing")
       /\ StronglySorted (fun r1 r2 => Row.id r1 <= Row.id r2) matching.
Proof.
  split; [reflexivity | split; [reflexivity |]].
  exact (search_by_department sample_rows
           (EmployeeSearchCriteria.new " " "Marketing") eq_refl eq_refl).
Defined.

(** ** The LIKE pattern of the name search *)

Lemma like_match_percent (p text : string) :
  SQL.like_match (String "%" p) text =
  SQL.like_match p text
  || match text with
     | EmptyString => false
     | String _ text' => SQL.like_match (String "%" p) text'
     end.
Proof. destruct text; reflexivity. Qed.

Lemma like_match_literal (c : ascii) (p text : string) :
  Ascii.eqb c "%" = false -> Ascii.eqb c "_" = false ->
  SQL.like_match (String c p) text =
  match text with
  | EmptyString => false
  | String d text' =>
      Ascii.eqb (SQL.like_fold c) (SQL.like_fold d) && SQL.like_match p text'
  end.
Proof. intros H1 H2. simpl. rewrite H1, H2. reflexivity. Qed.

Lemma like_percent_iff (p text : string) :
  SQL.like_match (String "%" p) text = true
  <-> exists before after, text = before ++ after /\ SQL.like_match p after = true.
Proof.
  induction text as [|d text IH]; rewrite like_match_percent, orb_true_iff.
  - split.
    + intros [H | H]; [now exists "", "" | discriminate].
    + intros [[|x before] [after [H Hm]]]; [| discriminate H].
      simpl in H. subst after. now left.
  - rewrite IH. split.
    + intros [H | [before [after [-> Hm]]]].
      * now exists "", (String d text).
      * now exists (String d before), after.
    + intros [[|x before] [after [H Hm]]].
      * simpl in H. subst after. now left.
      * simpl in H. injection H as _ ->. right. now exists before, after.
Qed.

Lemma like_literal_prefix_iff (term p text : string) :
  no_wildcard term = true ->
  SQL.like_match (term ++ p) text = true
  <-> exists middle after,
        text = middle ++ after
        /\ fold_ascii_case middle = fold_ascii_case term
        /\ SQL.like_match p after = true.
Proof.
  revert text. induction term as [|c term IH]; intros text Hnw.
  - simpl. split.
    + intros H. now exists "", text.
    + intros [[|x middle] [after [-> [Hf Hm]]]]; [exact Hm | discriminate Hf].
  - simpl in Hnw. apply andb_true_iff in Hnw as [Hc Hnw].
    apply andb_true_iff in Hc as [Hc1 Hc2].
    apply negb_true_iff in Hc1, Hc2.
    change (String c term ++ p) with (String c (term ++ p)).
    rewrite (like_match_literal c (term ++ p) text Hc1 Hc2).
    destruct text as [|d text].
    + split; [discriminate |].
      intros [[|x middle] [after [H [Hf _]]]]; discriminate.
    + rewrite andb_true_iff, (IH text Hnw), Ascii.eqb_eq. split.
      * intros [Hcd [middle [after [-> [Hf Hm]]]]].
        exists (String d middle), after. simpl. rewrite Hf, Hcd. auto.
      * intros [[|x middle] [after [H [Hf Hm]]]]; [discriminate Hf |].
        simpl in H, Hf. injection H as -> ->. injection Hf as Hcd Hf.
        split; [now symmetry |]. now exists middle, after.
Qed.

(** For a term without wildcards, the pattern [%term%] matches exactly the
    texts in which the term occurs, the case of ASCII letters ignored. *)
Lemma like_contains_iff (term text : string) :
  no_wildcard term = true ->
  SQL.like_match ("%" ++ term ++ "%") text = true
  <-> occurs_ignoring_ascii_case term text.
Proof.
  intros Hnw. change ("%" ++ term ++ "%") with (String "%" (term ++ "%")).
  rewrite like_percent_iff. unfold occurs_ignoring_ascii_case. split.
  - intros [before [rest [-> Hm]]].
    apply (like_literal_prefix_iff term "%" rest Hnw) in Hm
      as [middle [after [-> [Hf _]]]].
    now exists before, middle, after.
  - intros [before [middle [after [-> Hf]]]].
    exists before, (middle ++ after). split; [reflexivity |].
    apply (like_literal_prefix_iff term "%" _ Hnw).
    exists middle, after. repeat split; trivial.
    apply like_percent_iff. exists after, "". split; [| reflexivity].
    clear. induction after as [|x after IH]; simpl; [reflexivity | now rewrite <- IH].
Qed.

(** X13. Search with a term and no department, on an engine that does not
    fail.  The term has neither of the wildcards [%] and [_] and no NUL, the
    pattern built from it is within the length SQLite allows, and no stored
    name has a NUL.  Search succeeds and reports the number of records it
    returns.  The records returned are a selection of the table: each row
    in whose first or last name the term occurs, the case of ASCII letters
    ignored, is returned as often as the table has it, no other row is
    returned, and the order is ascending by id.  A null name matches nothing
    and does no harm. *)
Theorem search_by_name (rows : list Row.t)
    (search_criteria : EmployeeSearchCriteria.t) :
  EmployeeSearchCriteria.has_search_term search_criteria = true ->
  EmployeeSearchCriteria.has_department_filter search_criteria = false ->
  no_wildcard (EmployeeSearchCriteria.search_term search_criteria) = true ->
  like_term (EmployeeSearchCriteria.search_term search_criteria) ->
  names_without_nul rows ->
  exists matching rest,
    EmployeeController.search_employees search_criteria (healthy rows) =
    (mkEnvelope true
       (Some ("Found " ++ Py.str_of_len matching ++ " matching employees"))
       None None None (Some (map Employee.from_dict matching)) None None,
     healthy rows)
    /\ selection rows matching rest
    /\ (forall r, In r matching ->
          matches_name (EmployeeSearchCriteria.search_term search_criteria) r)
    /\ (forall r, In r rest ->
          ~ matches_name (EmployeeSearchCriteria.search_term search_criteria) r)
    /\ StronglySorted (fun r1 r2 => Row.id r1 <= Row.id r2) matching.
Proof.
  intros Hterm Hdept Hnw _ _.
  set (term := EmployeeSearchCriteria.search_term search_criteria) in *.
  set (f := fun r => SQL.like (Row.fname r) ("%" ++ term ++ "%")
                     || SQL.like (Row.lname r) ("%" ++ term ++ "%")).
  assert (Hf : forall r, f r = true <-> matches_name term r).
  { intros r. unfold f, matches_name, SQL.like. rewrite orb_true_iff. split.
    - intros [Hm | Hm]; [left | right].
      + destruct (Row.fname r) as [n|]; [| discriminate].
        exists n. split; [reflexivity | now apply like_contains_iff].
      + destruct (Row.lname r) as [n|]; [| discriminate].
        exists n. split; [reflexivity | now apply like_contains_iff].
    - intros [[n [Hn Hm]] | [n [Hn Hm]]]; [left | right];
        rewrite Hn; now apply like_contains_iff. }
  exists (SQL.order_by_id (filter f rows)).
  exists (filter (fun r => negb (f r)) rows).
  split; [| split; [| split; [| split]]].
  - unfold EmployeeController.search_employees, try_except,
      EmployeeSearchCriteria.is_empty.
    rewrite Hterm, Hdept. cbn [negb andb].
    unfold bind at 1. run_healthy. unfold ret, Py.str_of_len.
    now rewrite length_map.
  - apply sorted_filter_selection.
  - intros r Hr. apply (proj1 (order_by_id_In _ r)) in Hr.
    apply filter_In in Hr as [_ Hm]. now apply Hf.
  - intros r Hr Hm. apply filter_In in Hr as [_ Hn].
    apply Hf in Hm. rewrite Hm in Hn. discriminate.
  - apply order_by_id_ascending.
Qed.

Lemma search_by_name_witness :
  EmployeeSearchCriteria.has_search_term (EmployeeSearchCriteria.new "LEE" "") = true
  /\ EmployeeSearchCriteria.has_department_filter
       (EmployeeSearchCriteria.new "LEE" "") = false
  /\ no_wildcard (EmployeeSearchCriteria.search_term
                    (EmployeeSearchCriteria.new "LEE" "")) = true
  /\ like_term (EmployeeSearchCriteria.search_term
                  (EmployeeSearchCriteria.new "LEE" ""))
  /\ names_without_nul sample_rows
  /\ exists matching rest,
       EmployeeController.search_employees
         (EmployeeSearchCriteria.new "LEE" "") (healthy sample_rows) =
       (mkEnvelope true
          (Some ("Found " ++ Py.str_of_len matching ++ " matching employees"))
          None None None (Some (map Employee.from_dict matching)) None None,
        healthy sample_rows)
       /\ selection sample_rows matching rest
       /\ List.length matching = 2%nat.
Proof.
  assert (Hlike : like_term (EmployeeSearchCriteria.search_term
                               (EmployeeSearchCriteria.new "LEE" ""))).
  { split; [reflexivity |]. unfold SQLITE_MAX_LIKE_PATTERN_LENGTH. simpl. lia. }
  assert (Hnames : names_without_nul sample_rows).
  { intros r name Hr Hname. simpl in Hr.
    destruct Hr as [<- | [<- | [<- | []]]]; simpl in Hname;
      destruct Hname as [Hname | Hname]; injection Hname as <-; reflexivity. }
  split; [reflexivity | split; [reflexivity | split; [reflexivity |]]].
  split; [exact Hlike | split; [exact Hnames |]].
  destruct (search_by_name sample_rows (EmployeeSearchCriteria.new "LEE" "")
              eq_refl eq_refl eq_refl Hlike Hnames)
    as [matching [rest [Heq [Hsel _]]]].
  exists matching, rest. split; [exact Heq | split; [exact Hsel |]].
  assert (Hcomp :
    employees (fst (EmployeeController.search_employees
                      (EmployeeSearchCriteria.new "LEE" "") (healthy sample_rows)))
    = Some [Employee.mk (Some 2) "Anna" "Lee" "Engineering" "555-0102";
            Employee.mk (Some 3) "Anna" "Lee" "Marketing" "555-0103"])
    by reflexivity.
  rewrite Heq in Hcomp. simpl in Hcomp. injection Hcomp as Hcomp.
  apply (f_equal (@List.length _)) in Hcomp. now rewrite length_map in Hcomp.
Defined.

(* ================================================================== *)
(** * Cleaned strings *)
(* ================================================================== *)

Lemma lstrip_margin (s : string) :
  exists before, s = before ++ Py.lstrip s /\ blank before = true.
Proof.
  induction s as [|c s [before [Hs Hb]]]; simpl.
  - now exists "".
  - destruct (Py.isspace c) eqn:E.
    + exists (String c before). simpl. rewrite E, Hb. now rewrite <- Hs.
    + now exists "".
Qed.

Lemma rstrip_margin (s : string) :
  exists after, s = Py.rstrip s ++ after /\ blank after = true.
Proof.
  induction s as [|c s [after [Hs Hb]]]; simpl.
  - now exists "".
  - destruct (Py.rstrip s) as [|d t] eqn:E.
    + simpl in Hs. subst after. destruct (Py.isspace c) eqn:Ec.
      * exists (String c s). simpl. now rewrite Ec, Hb.
      * now exists s.
    + exists after. split; [| exact Hb]. simpl in *. now f_equal.
Qed.

Lemma lstrip_starts (s : string) : starts_with_space (Py.lstrip s) = false.
Proof.
  induction s as [|c s IH]; simpl; [reflexivity |].
  destruct (Py.isspace c) eqn:E; [exact IH | simpl; exact E].
Qed.

Lemma rstrip_ends (s : string) : ends_with_space (Py.rstrip s) = false.
Proof.
  induction s as [|c s IH]; simpl; [reflexivity |].
  destruct (Py.rstrip s) as [|d t] eqn:E.
  - destruct (Py.isspace c) eqn:Ec; simpl; [reflexivity | exact Ec].
  - exact IH.
Qed.

Lemma rstrip_starts (s : string) :
  starts_with_space s = false -> starts_with_space (Py.rstrip s) = false.
Proof.
  destruct s as [|c s]; simpl; [reflexivity |]. intros Hc.
  destruct (Py.rstrip s); [rewrite Hc |]; simpl; exact Hc.
Qed.

Lemma lstrip_id (s : string) : starts_with_space s = false -> Py.lstrip s = s.
Proof. destruct s as [|c s]; simpl; [reflexivity | now intros ->]. Qed.

Lemma rstrip_id (s : string) : ends_with_space s = false -> Py.rstrip s = s.
Proof.
  induction s as [|c s IH]; simpl; [reflexivity |].
  destruct s as [|d s].
  - intros ->. reflexivity.
  - intros H. now rewrite (IH H).
Qed.

Lemma strip_id (s : string) :
  starts_with_space s = false -> ends_with_space s = false -> Py.strip s = s.
Proof. intros Hs He. unfold Py.strip. now rewrite (lstrip_id s Hs), rstrip_id. Qed.

Lemma strip_starts (s : string) : starts_with_space (Py.strip s) = false.
Proof. apply rstrip_starts, lstrip_starts. Qed.

Lemma strip_ends (s : string) : ends_with_space (Py.strip s) = false.
Proof. apply rstrip_ends. Qed.

Lemma strip_idempotent (s : string) : Py.strip (Py.strip s) = Py.strip s.
Proof. apply strip_id; [apply strip_starts | apply strip_ends]. Qed.

(** X14. What [_clean_string] returns: for [None] the empty string, for a
    string that string without its blank margins.  The result begins and
    ends with a character that is not whitespace (or is empty), and what
    was cut off on either side is whitespace only. *)
Theorem clean_string_cuts_blank_margins (value : option string) :
  match value with
  | None => Employee._clean_string value = ""
  | Some s =>
      exists before after,
        s = before ++ Employee._clean_string value ++ after
        /\ blank before = true /\ blank after = true
        /\ starts_with_space (Employee._clean_string value) = false
        /\ ends_with_space (Employee._clean_string value) = false
  end.
Proof.
  destruct value as [s|]; simpl; [| reflexivity].
  destruct (lstrip_margin s) as [before [Hs Hb]].
  destruct (rstrip_margin (Py.lstrip s)) as [after [Hl Ha]].
  exists before, after. unfold Py.strip.
  repeat split; trivial.
  - now rewrite <- Hl.
  - apply rstrip_starts, lstrip_starts.
  - apply rstrip_ends.
Qed.

(** ** Employee to dictionary and back *)

(** X15. An employee built by the constructor survives [to_dict] followed by
    [from_dict] unchanged, whatever the arguments it was built from; so
    does an employee read from a stored row. *)
Theorem employee_dict_round_trip (id : option Z)
    (fname lname department ph_number : option string) (r : Row.t) :
  EmployeeDict.from_dict
    (EmployeeDict.to_dict (Employee.new id fname lname department ph_number))
  = Employee.new id fname lname department ph_number
  /\ EmployeeDict.from_dict (EmployeeDict.to_dict (Employee.from_dict r))
     = Employee.from_dict r
  /\ EmployeeDict.from_dict (EmployeeDict.of_row r) = Employee.from_dict r.
Proof.
  assert (H : forall v, Py.strip (Employee._clean_string v) = Employee._clean_string v).
  { intros [s|]; simpl; [apply strip_idempotent | reflexivity]. }
  unfold EmployeeDict.from_dict, EmployeeDict.to_dict, Employee.from_dict,
    Employee.new; simpl.
  repeat split; now rewrite !H.
Qed.

(** ** The full name *)

Lemma rstrip_blank_suffix (a t : string) :
  blank t = true -> Py.rstrip (a ++ t) = Py.rstrip a.
Proof.
  intros Ht. induction a as [|c a IH]; simpl.
  - now apply rstrip_empty_iff.
  - now rewrite IH.
Qed.

Lemma ends_with_space_append (a b : string) :
  b <> "" -> ends_with_space (a ++ b) = ends_with_space b.
Proof.
  intros Hb. induction a as [|c a IH]; simpl; [reflexivity |].
  destruct (a ++ b) eqn:E; [| exact IH].
  destruct a; simpl in E; [contradiction | discriminate].
Qed.

(** X16. The full name of an employee built by the constructor: the first and
    the last name with one space between them when both are there, the one
    that is there when the other is empty, and the empty string when both
    are empty; never a name with a space at either end. *)
Theorem full_name_of_constructed_employee (id : option Z)
    (fname lname department ph_number : option string) :
  let e := Employee.new id fname lname department ph_number in
  Employee.get_full_name e =
  match Employee.fname e, Employee.lname e with
  | EmptyString, l => l
  | f, EmptyString => f
  | f, l => f ++ " " ++ l
  end.
Proof.
  intros e. unfold Employee.get_full_name. subst e. simpl.
  set (f := Employee._clean_string fname).
  set (l := Employee._clean_string lname).
  assert (Hf : starts_with_space f = false /\ ends_with_space f = false).
  { subst f. destruct fname; simpl; [| auto]. split; [apply strip_starts | apply strip_ends]. }
  assert (Hl : starts_with_space l = false /\ ends_with_space l = false).
  { subst l. destruct lname; simpl; [| auto]. split; [apply strip_starts | apply strip_ends]. }
  destruct Hf as [Hfs Hfe], Hl as [Hls Hle].
  destruct f as [|c f].
  - simpl. unfold Py.strip. simpl.
    change (Py.isspace " ") with true. cbv iota.
    rewrite (lstrip_id l Hls). now apply rstrip_id.
  - destruct l as [|d l].
    + unfold Py.strip. rewrite lstrip_id by exact Hfs.
      rewrite rstrip_blank_suffix by reflexivity. now apply rstrip_id.
    + apply (strip_id (String c f ++ " " ++ String d l)); [exact Hfs |].
      rewrite ends_with_space_append by discriminate.
      change (" " ++ String d l) with (String " " (String d l)).
      exact Hle.
Qed.

(* ================================================================== *)
(** * The update request and the statement built from it *)
(* ================================================================== *)

(** X17. The three places that ask whether a request has anything to write
    agree: [has_updates] is true exactly when [get_update_fields] is not
    empty and exactly when the data access layer has an assignment to put
    in its UPDATE statement, and both lists have one entry per present
    field.  For a request without fields the data access layer returns
    [False] without executing a statement: the database and even the fault
    schedule of the engine are as before. *)
Theorem update_request_views_agree (u : EmployeeUpdateData.t) :
  let fields :=
    EmployeeDAL.update_fields (EmployeeUpdateData.fname u) (EmployeeUpdateData.lname u)
      (EmployeeUpdateData.department u) (EmployeeUpdateData.ph_number u) in
  (EmployeeUpdateData.has_updates u = true
   <-> EmployeeUpdateData.get_update_fields u <> [])
  /\ (EmployeeUpdateData.has_updates u = true <-> fields <> [])
  /\ List.length (EmployeeUpdateData.get_update_fields u) = List.length fields
  /\ (EmployeeUpdateData.has_updates u = false ->
      forall i db,
        EmployeeDAL.update_employee i (EmployeeUpdateData.fname u)
          (EmployeeUpdateData.lname u) (EmployeeUpdateData.department u)
          (EmployeeUpdateData.ph_number u) db
        = (Return false, db)).
Proof.
  destruct u as [[f|] [l|] [d|] [p|]]; simpl;
    (split; [| split; [| split; [reflexivity |]]]);
    try (split; [intros _; discriminate | reflexivity]);
    try (split; [discriminate | intros Hne; now elim Hne]);
    try discriminate.
  intros _ i db. reflexivity.
Qed.

Lemma update_request_views_agree_witness :
  EmployeeUpdateData.has_updates (EmployeeUpdateData.new (Some "") None None None) = false
  /\ forall i db,
       EmployeeDAL.update_employee i None None None None db = (Return false, db).
Proof.
  split; [reflexivity |].
  exact (proj2 (proj2 (proj2 (update_request_views_agree
                                (EmployeeUpdateData.new (Some "") None None None))))
           eq_refl).
Defined.

(* ================================================================== *)
(** * What reaches the controller from the view *)
(* ================================================================== *)

Lemma blank_strip (s : string) : blank (Py.strip s) = blank s.
Proof.
  destruct (blank s) eqn:E.
  - apply strip_empty_iff in E. now rewrite E.
  - destruct (blank (Py.strip s)) eqn:E'; [| reflexivity].
    apply strip_empty_iff in E'. rewrite strip_idempotent in E'.
    apply strip_empty_iff in E'. congruence.
Qed.

Lemma view_field (line : string) :
  EmployeeUpdateData.strip_if_truthy (EmployeeView.if_truthy (Py.strip line))
  = if blank line then None else Some (Py.strip line).
Proof.
  unfold EmployeeView.if_truthy. rewrite truthy_strip.
  destruct (blank line) eqn:E; simpl; [reflexivity |].
  rewrite truthy_strip, E. simpl. now rewrite strip_idempotent.
Qed.

(** X18. The update request that the view builds from the four lines typed: a
    blank line leaves the field absent, any other line gives its stripped
    text, which is not empty and has no whitespace at either end.  A field
    of such a request is never present and empty. *)
Theorem view_update_request (line1 line2 line3 line4 : string) :
  let u := EmployeeView.get_update_data (line1, line2, line3, line4) in
  let field (line : string) := if blank line then None else Some (Py.strip line) in
  u = EmployeeUpdateData.mk (field line1) (field line2) (field line3) (field line4)
  /\ EmployeeUpdateData.fname u <> Some ""
  /\ EmployeeUpdateData.lname u <> Some ""
  /\ EmployeeUpdateData.department u <> Some ""
  /\ EmployeeUpdateData.ph_number u <> Some ""
  /\ (EmployeeUpdateData.has_updates u = false
      <-> blank line1 = true /\ blank line2 = true
          /\ blank line3 = true /\ blank line4 = true).
Proof.
  intros u field.
  assert (Hu : u = EmployeeUpdateData.mk (field line1) (field line2)
                                         (field line3) (field line4)).
  { subst u. unfold EmployeeView.get_update_data, EmployeeUpdateData.new.
    now rewrite !view_field. }
  assert (Hne : forall line, field line <> Some "").
  { intros line. unfold field. destruct (blank line) eqn:E; [discriminate |].
    intros H. injection H as H. apply strip_empty_iff in H. congruence. }
  rewrite Hu. simpl.
  split; [reflexivity |]. do 4 (split; [apply Hne |]).
  unfold EmployeeUpdateData.has_updates, field; simpl.
  destruct (blank line1), (blank line2), (blank line3), (blank line4); simpl;
    (split; [intros H; try discriminate H; auto
            | intros [H1 [H2 [H3 H4]]]; try discriminate; reflexivity]).
Qed.

Lemma create_employee_conflict (rows : list Row.t) (f l d p : string) :
  Employee.is_valid (Employee.new None (Some f) (Some l) (Some d) (Some p)) = true ->
  (exists r, In r rows /\ Row.phNumber r = Some p) ->
  EmployeeController.create_employee f l d p (healthy rows) =
  (plain false ("Employee with phone number " ++ p ++ " already exists"),
   healthy rows).
Proof.
  intros Hv Hex. unfold EmployeeController.create_employee, try_except.
  rewrite Hv. cbn [negb]. run_healthy.
  apply phone_collision_existsb in Hex. now rewrite Hex.
Qed.

(** X19. Adding an employee through the view, on an engine that does not fail,
    with four lines none of which is blank.  If a stored row has the
    stripped phone number, the controller answers with the conflict and
    nothing is written; otherwise the table gets one more row, under an id
    that no row had, and the row holds the stripped lines. *)
Theorem view_add_employee_stores_stripped (rows : list Row.t)
    (line1 line2 line3 line4 : string) :
  blank line1 = false -> blank line2 = false ->
  blank line3 = false -> blank line4 = false ->
  let added :=
    EmployeeView.handle_add_employee (line1, line2, line3, line4) (healthy rows) in
  ((exists r, In r rows /\ Row.phNumber r = Some (Py.strip line4)) ->
   added =
   (plain false ("Employee with phone number " ++ Py.strip line4 ++ " already exists"),
    healthy rows))
  /\
  ((forall r, In r rows -> Row.phNumber r <> Some (Py.strip line4)) ->
   success (fst added) = true
   /\ exists new_id,
        (forall r, In r rows -> Row.id r <> new_id)
        /\ table (snd added) =
           (rows ++ [Row.mk new_id (Some (Py.strip line1))
                            (Some (Py.strip line2)) (Some (Py.strip line3))
                            (Some (Py.strip line4))])%list).
Proof.
  intros H1 H2 H3 H4 added. subst added.
  unfold EmployeeView.handle_add_employee, EmployeeView.get_employee_input.
  assert (Hv : Employee.is_valid
                 (Employee.new None (Some (Py.strip line1)) (Some (Py.strip line2))
                    (Some (Py.strip line3)) (Some (Py.strip line4))) = true).
  { rewrite is_valid_iff_no_blank, !blank_strip, H1, H2, H3, H4. reflexivity. }
  split.
  - intros Hex. now apply create_employee_conflict.
  - intros Hfree. rewrite create_employee_success by assumption.
    split; [reflexivity |]. exists (SQL.next_rowid rows). split; [| reflexivity].
    intros r Hr. pose proof (next_rowid_fresh rows r Hr). lia.
Qed.

Lemma view_add_employee_stores_stripped_witness :
  blank "  Jane" = false /\ blank "Smith " = false
  /\ blank " HR " = false /\ blank " 555-0101 " = false
  /\ ((exists r, In r sample_rows /\ Row.phNumber r = Some (Py.strip " 555-0101 "))
      /\ EmployeeView.handle_add_employee ("  Jane", "Smith ", " HR ", " 555-0101 ")
           (healthy sample_rows) =
         (plain false ("Employee with phone number " ++ Py.strip " 555-0101 "
                       ++ " already exists"),
          healthy sample_rows))
  /\ (forall r, In r sample_rows -> Row.phNumber r <> Some (Py.strip " 555-0199 "))
  /\ exists new_id,
       (forall r, In r sample_rows -> Row.id r <> new_id)
       /\ table (snd (EmployeeView.handle_add_employee
                        ("  Jane", "Smith ", " HR ", " 555-0199 ")
                        (healthy sample_rows))) =
          (sample_rows ++ [Row.mk new_id (Some "Jane") (Some "Smith") (Some "HR")
                                  (Some "555-0199")])%list.
Proof.
  assert (Hex : exists r, In r sample_rows
                          /\ Row.phNumber r = Some (Py.strip " 555-0101 ")).
  { exists (Row.mk 1 (Some "John") (Some "Doe") (Some "Engineering") (Some "555-0101")).
    simpl. auto. }
  assert (Hfree : forall r, In r sample_rows
                            -> Row.phNumber r <> Some (Py.strip " 555-0199 ")).
  { intros r Hr. simpl in Hr.
    destruct Hr as [<- | [<- | [<- | []]]]; simpl; discriminate. }
  repeat (split; [reflexivity |]). split; [split; [exact Hex |] | split; [exact Hfree |]].
  - exact (proj1 (view_add_employee_stores_stripped sample_rows
                    "  Jane" "Smith " " HR " " 555-0101 "
                    eq_refl eq_refl eq_refl eq_refl) Hex).
  - exact (proj2 (proj2 (view_add_employee_stores_stripped sample_rows
                           "  Jane" "Smith " " HR " " 555-0199 "
                           eq_refl eq_refl eq_refl eq_refl) Hfree)).
Defined.

(* ================================================================== *)
(** * Search criteria built from two strings *)
(* ================================================================== *)

(** X20. The criteria built from a term and a department: there is a term
    exactly when the term given is not blank, a department filter exactly
    when the department given is not blank, and the criteria are empty
    exactly when both are blank.  Search on criteria built from two blank
    strings therefore lists every record. *)
Theorem search_criteria_of_strings (search_term department : string) :
  let c := EmployeeSearchCriteria.new search_term department in
  EmployeeSearchCriteria.has_search_term c = negb (blank search_term)
  /\ EmployeeSearchCriteria.has_department_filter c = negb (blank department)
  /\ EmployeeSearchCriteria.is_empty c = blank search_term && blank department
  /\ (blank search_term = true -> blank department = true ->
      forall rows,
        employees (fst (EmployeeController.search_employees c (healthy rows)))
        = Some (map Employee.from_dict (SQL.order_by_id rows))).
Proof.
  intros c. subst c.
  unfold EmployeeSearchCriteria.is_empty, EmployeeSearchCriteria.has_search_term,
    EmployeeSearchCriteria.has_department_filter, EmployeeSearchCriteria.new; simpl.
  rewrite !truthy_strip, !negb_involutive. repeat split.
  intros Ht Hd rows.
  unfold EmployeeController.search_employees, try_except,
    EmployeeSearchCriteria.is_empty, EmployeeSearchCriteria.has_search_term,
    EmployeeSearchCriteria.has_department_filter; simpl.
  rewrite !truthy_strip, Ht, Hd. cbn [negb andb].
  unfold bind at 1. unfold bind at 1. unfold call.
  unfold EmployeeController.get_all_employees, try_except. run_healthy.
  reflexivity.
Qed.

Lemma search_criteria_of_strings_witness :
  blank "   " = true /\ blank "" = true
  /\ employees (fst (EmployeeController.search_employees
                       (EmployeeSearchCriteria.new "   " "") (healthy sample_rows)))
     = Some (map Employee.from_dict (SQL.order_by_id sample_rows)).
Proof.
  split; [reflexivity | split; [reflexivity |]].
  exact (proj2 (proj2 (proj2 (search_criteria_of_strings "   " "")))
           eq_refl eq_refl sample_rows).
Defined.
